(** * Huawei switch driver ([baremetal/conductor/switch/huawei_ssh.py])

    A shallow embedding of [HuaweiSwitch]: the output validation, the
    command compilers (VLAN, rate limit), the MAC-table parser and the
    session pipeline (lock slot, SSH connection with retry, save).

    Conventions.
    - Python [str] values are [string]s whose characters are code points
      below 256; the interpreter is Python 3.
    - Effects are recorded in a chronological trace of events; the switch,
      the lock pool and the random source are oracles that may look at the
      trace so far.
    - Time is counted in whole seconds.  The two tenacity retry loops take
      a [fuel] bound on the number of attempts; the theorems show which
      fuel is always enough. *)

From Stdlib Require Import String Ascii List Bool Arith ZArith Lia.
From Stdlib Require Import DecimalString.
Import ListNotations.
Open Scope list_scope.
Open Scope string_scope.

(** ** Python string primitives *)

Module PyStr.

(** [pat in s] and [re.compile(pat).search(s)] for a pattern without
    metacharacters: does [pat] occur at some position of [s]? *)
Fixpoint search (pat s : string) : bool :=
  prefix pat s ||
  match s with
  | EmptyString => false
  | String _ s' => search pat s'
  end.

(** The specification side of [search]: [pat] is a substring of [s]. *)
Definition occurs (pat s : string) : Prop :=
  exists pre post, s = pre ++ pat ++ post.

(** [s.split(sep)] for a separator of one character. *)
Fixpoint split_on (sep : ascii) (s : string) : list string :=
  match s with
  | EmptyString => [EmptyString]
  | String c s' =>
      if Ascii.eqb c sep then EmptyString :: split_on sep s'
      else match split_on sep s' with
           | h :: t => String c h :: t
           | [] => [String c EmptyString]
           end
  end.

(** [s.replace(old, new)] for an [old] of one character. *)
Fixpoint replace_char (old : ascii) (new : string) (s : string) : string :=
  match s with
  | EmptyString => EmptyString
  | String c s' =>
      if Ascii.eqb c old then new ++ replace_char old new s'
      else String c (replace_char old new s')
  end.

(** [s[i:j]] for [0 <= i <= j]: slices clamp, they never raise. *)
Definition slice (i j : nat) (s : string) : string := substring i (j - i) s.

(** [l[7:-2]] on a list. *)
Definition drop_header_footer {A : Type} (l : list A) : list A :=
  skipn 7 (firstn (List.length l - 2) l).

(** What [\s] matches in a [str] pattern, for code points below 256. *)
Definition is_space (c : ascii) : bool :=
  let n := nat_of_ascii c in
  (((9 <=? n) && (n <=? 13)) || ((28 <=? n) && (n <=? 32))
   || (n =? 133) || (n =? 160))%nat.

(** [re.compile(r'\S+').findall(s)]: the maximal runs of characters that
    are not white space, left to right.  [cur] is the run being read. *)
Fixpoint scan_nonspace (s : string) (cur : string) : list string :=
  match s with
  | EmptyString =>
      match cur with EmptyString => [] | _ => [cur] end
  | String c s' =>
      if is_space c then
        match cur with
        | EmptyString => scan_nonspace s' EmptyString
        | _ => cur :: scan_nonspace s' EmptyString
        end
      else scan_nonspace s' (cur ++ String c EmptyString)
  end.

Definition findall_nonspace (s : string) : list string :=
  scan_nonspace s EmptyString.

(** [str(n)] and ["%s" % n] for an [int]. *)
Definition str_of_Z (n : Z) : string :=
  NilZero.string_of_int (Z.to_int n).

End PyStr.

(** ** Exceptions and results *)

(** The [commands] argument of [_check_output]: a single command line
    ([send_command], [save_configuration]) or a batch ([send_config_set]). *)
Inductive cmdarg : Type :=
| OneCmd (c : string)
| CmdSet (cs : list string).

Inductive exn : Type :=
| SSHException (msg : string)      (* paramiko.SSHException and subclasses *)
| EOFError
| IndexError
| ValueError
| OtherException (name : string)   (* any other subclass of Exception *)
| KeyboardInterrupt                (* a BaseException that is no Exception *)
| RetryError (last : exn)          (* tenacity.RetryError *)
| SwitchConnectionError (ip : string) (error : exn)
| ConfigSwitchError (command : cmdarg) (error : string)
| ConfigInternalVlanError
| UnboundLocalError (name : string)
| RuntimeError (msg : string).

Inductive outcome (A : Type) : Type :=
| Return (a : A)
| Raise (e : exn).
Arguments Return {A} a.
Arguments Raise {A} e.

(** ** [_check_output] *)

Definition ERROR_MSG_PATTERNS : list string :=
  ["Error"; "Wrong"; "Incomplete"; "Unrecognized"].

(** The [for pattern in ERROR_MSG_PATTERNS] loop followed by
    [return output]. *)
Fixpoint check_patterns (pats : list string) (output : string)
         (commands : cmdarg) : outcome (option string) :=
  match pats with
  | [] => Return (Some output)
  | p :: ps =>
      if PyStr.search p output
      then Raise (ConfigSwitchError commands output)
      else check_patterns ps output commands
  end.

Definition _check_output (output : string) (commands : cmdarg)
  : outcome (option string) :=
  match output with
  | EmptyString => Return None                 (* [if not output: return] *)
  | _ => check_patterns ERROR_MSG_PATTERNS output commands
  end.


(** ** Command compilers *)

Record port : Type := {
  port_name : string;
  vlan_id : list string;
  set_link_type : string;
  current_link_type : string
}.

Record limit_info : Type := {
  template_name : string;
  inbound_port : string;
  outbound_ports : list string;
  bandwidth : Z
}.

Record switch : Type := {
  vlan_ids : list string;
  ports : list string
}.

(** One turn of the loop of [gen_vlan_string]. *)
Definition gen_vlan_step (vlan_string vlan : string) : string :=
  let vlan := if PyStr.search "-" vlan
              then PyStr.replace_char "-" " to " vlan else vlan in
  vlan_string ++ (vlan ++ " ").

Definition gen_vlan_string (vlans : list string) : string :=
  fold_left gen_vlan_step vlans "".

Definition _unset_vlan (ports : list port) : list string :=
  let unset_vlan_cmd := "undo port default vlan" in
  flat_map (fun port =>
    if (current_link_type port =? "trunk")%string
    then ["interface " ++ port_name port;
          "undo port link-type"; "commit"; "q"]
    else ["interface " ++ port_name port; "undo port link-type";
          unset_vlan_cmd; "commit"; "q"]) ports.

(** The [commands] that [set_vlan] hands to [my_send_config_set]. *)
Definition set_vlan_commands (ports : list port) : list string :=
  let unset_vlan_cmd := _unset_vlan ports in
  let set_vlan_cmd :=
    flat_map (fun port =>
      let vlan_string := gen_vlan_string (vlan_id port) in
      if (set_link_type port =? "trunk")%string
      then ["interface " ++ port_name port;
            "port link-type trunk";
            "port trunk allow-pass vlan " ++ vlan_string;
            "commit"; "q"]
      else ["interface " ++ port_name port;
            "port link-type access";
            "port default vlan  " ++ vlan_string;
            "commit"; "q"]) ports in
  (unset_vlan_cmd ++ set_vlan_cmd ++ ["q"])%list.

(** The [commands] that [unset_vlan] hands to [my_send_config_set]. *)
Definition unset_vlan_commands (ports : list port) : list string :=
  (_unset_vlan ports ++ ["q"])%list.

(** ["qos lr cir %s kbps cbs %s kbytes outbound" % (cir, cbs)] *)
Definition qos_lr_cmd (cir cbs : Z) : string :=
  "qos lr cir " ++ PyStr.str_of_Z cir ++ " kbps cbs "
  ++ PyStr.str_of_Z cbs ++ " kbytes outbound".

(** The [commands] that [set_limit] hands to [my_send_config_set]. *)
Definition set_limit_commands (limit_infos : list limit_info) : list string :=
  let inbound_cmd :=
    flat_map (fun info =>
      ["interface " ++ inbound_port info;
       "qos car inbound " ++ template_name info; "commit"; "q"])
      limit_infos in
  let outbound_cmd :=
    flat_map (fun info =>
      flat_map (fun port =>
        let cir := (bandwidth info * 1024)%Z in
        let cbs := Z.min 524288 (cir * 2) in
        let cmd1 := qos_lr_cmd cir cbs in
        ["interface " ++ port; cmd1; "commit"; "q"])
        (outbound_ports info))
      limit_infos in
  (inbound_cmd ++ outbound_cmd ++ ["q"])%list.

Definition _clean_all_config (sw : switch) (template : option string)
  : list string :=
  let all_ports_cmd :=
    flat_map (fun port =>
      let unset_vlan_cmd :=
        ["interface " ++ port; "undo port link-type";
         "undo port default vlan"] in
      let unset_limit_cmd := ["undo qos car inbound"; "undo qos lr outbound"] in
      let unset_shutdown_cmd := ["undo shutdown"; "q"] in
      (unset_vlan_cmd ++ unset_limit_cmd ++ unset_shutdown_cmd)%list)
      (ports sw) in
  let delete_limit_template :=
    match template with
    | Some (String a n) => ["undo qos car " ++ String a n]
    | _ => []
    end in
  (all_ports_cmd ++ delete_limit_template)%list.

(** [init_dhclient_cmds] of [init_dhclient_config], or its exception. *)
Definition init_dhclient_cmds (sw : switch) : outcome (list string) :=
  match vlan_ids sw with
  | [vlan] =>
      let set_vlan_cmd :=
        flat_map (fun port =>
          ["interface " ++ port; "port link-type access";
           "port default vlan " ++ vlan; "q"]) (ports sw) in
      Return (set_vlan_cmd ++ ["commit"; "q"])%list
  | _ => Raise ConfigInternalVlanError
  end.

Section InitAllConfig.

(** The builtin [int] on a [str]: [None] stands for [ValueError]. *)
Variable py_int : string -> option Z.

(** [init_cmd_set] of [init_all_config] (the branch [not is_dhclient]),
    or the [ValueError] of [int(template_name.split('-')[-1])]. *)
Definition init_cmd_set (sw : switch) (template_name : string)
  : outcome (list string) :=
  match py_int (last (PyStr.split_on "-" template_name) "") with
  | None => Raise ValueError
  | Some bandwidth =>
      let cir := (bandwidth * 1024)%Z in
      let create_template_cmd :=
        ["qos car " ++ template_name ++ " cir " ++ PyStr.str_of_Z cir
         ++ " kbps"; "commit"] in
      let vlan_string := fold_left gen_vlan_step (vlan_ids sw) "" in
      let all_ports_cmd :=
        flat_map (fun port =>
          let set_vlan_cmd :=
            ["interface " ++ port; "port link-type trunk";
             "port trunk allow-pass vlan " ++ vlan_string] in
          let inbound_cmd := ["qos car inbound " ++ template_name] in
          let cir := (bandwidth * 1024)%Z in
          let cbs := Z.min 524288 (cir * 2) in
          let outbound_cmd := [qos_lr_cmd cir cbs] in
          let open_port_cmd := ["undo shutdown"; "q"] in
          (set_vlan_cmd ++ inbound_cmd ++ outbound_cmd ++ open_port_cmd)%list)
          (ports sw) in
      Return (create_template_cmd ++ all_ports_cmd ++ ["commit"; "q"])%list
  end.

End InitAllConfig.

(** ** The relation parser *)

Record Relation : Type := { mac : string; port_of : string }.

(** The right-hand side of [mac = ...] in [get_relations], for
    [data[0] = tok]. *)
Definition mac_of_token (tok : string) : string :=
  String.concat ":"
    (map (fun i => PyStr.slice 0 2 i ++ ":" ++ PyStr.slice 2 4 i)
         (PyStr.split_on "-" tok)).

(** The body of the [for line in ...] loops of [get_relations]:
    [data[0]] and [data[2]] raise [IndexError] when out of range. *)
Definition parse_line (line : string) : outcome Relation :=
  let data := PyStr.findall_nonspace line in
  match nth_error data 0 with
  | None => Raise IndexError
  | Some tok =>
      let mac := mac_of_token tok in
      match nth_error data 2 with
      | None => Raise IndexError
      | Some p => Return {| mac := mac; port_of := p |}
      end
  end.

(** [relations.append] over the lines, in order, onto [relations]; the
    first exception ends the loop. *)
Fixpoint parse_lines (lines : list string) (relations : list Relation)
  : outcome (list Relation) :=
  match lines with
  | [] => Return relations
  | line :: rest =>
      match parse_line line with
      | Raise e => Raise e
      | Return r => parse_lines rest (relations ++ [r])%list
      end
  end.

(** One query response, parsed onto the relations found so far. *)
Definition parse_response (datas : string) (relations : list Relation)
  : outcome (list Relation) :=
  parse_lines (PyStr.drop_header_footer (PyStr.split_on "010" datas)) relations.

(** ** Effects: the trace, the oracles and the monad *)

Inductive level : Type := DEBUG | ERROR.

Inductive logmsg : Type :=
| Msg (text : string)
| MsgCmds (text : string) (cmds : list string)   (* ["...%s" % commands] *)
| MsgExn (text : string) (e : exn)               (* ["...%s" % ex] *)
| Traceback (e : exn)                            (* [traceback.format_exc()] *)
| AfterAttempt (attempt : nat).                  (* [tenacity.after_log] *)

Inductive event : Type :=
| EvLog (l : level) (m : logmsg)
| EvAcquire                       (* a lock slot is taken *)
| EvRelease                       (* the lock slot is given back *)
| EvConnect                       (* a call of [netmiko.ConnectHandler] *)
| EvDisconnect                    (* [net_connect.__exit__] *)
| EvConfigMode
| EvSessionPreparation
| EvSendConfigSet (cmds : list string)
| EvSendCommand (c : string)
| EvSaveConfig (cmd : string)
| EvSleep (seconds : nat).

Definition trace : Type := list event.

(** What the driver does not decide: each answer may depend on the trace
    so far.  The calls that take time also say how many seconds. *)
Record device : Type := {
  dev_ip : string;
  dev_acquire : trace -> outcome unit;
  dev_connect : trace -> nat * outcome unit;
  dev_config_mode : trace -> outcome unit;
  dev_session_preparation : trace -> outcome unit;
  dev_send_config_set : trace -> list string -> outcome string;
  dev_send_command : trace -> string -> outcome string;
  dev_save_config : trace -> nat * outcome string;
  dev_random : trace -> nat
}.

(** A computation reads and extends the trace and ends in a value or an
    exception; [None] is a retry loop that ran out of fuel. *)
Definition M (A : Type) : Type := trace -> option (outcome A * trace).

Definition ret {A : Type} (a : A) : M A := fun t => Some (Return a, t).

Definition raise {A : Type} (e : exn) : M A := fun t => Some (Raise e, t).

Definition bind {A B : Type} (m : M A) (k : A -> M B) : M B :=
  fun t =>
    match m t with
    | None => None
    | Some (Raise e, t') => Some (Raise e, t')
    | Some (Return a, t') => k a t'
    end.

Notation "x <- m ;; k" := (bind m (fun x => k))
  (at level 61, m at next level, right associativity).
Notation "m ;;; k" := (bind m (fun _ => k))
  (at level 61, right associativity).

Definition emit (ev : event) : M unit :=
  fun t => Some (Return tt, (t ++ [ev])%list).

Definition log (l : level) (m : logmsg) : M unit := emit (EvLog l m).

(** A call whose answer the oracle [f] gives; [ev] records the call. *)
Definition call {A : Type} (ev : event) (f : trace -> outcome A) : M A :=
  fun t => Some (f t, (t ++ [ev])%list).

Definition lift {A : Type} (r : outcome A) : M A :=
  fun t => Some (r, t).

(** [try: m  except <caught>: handler]. *)
Definition try_except {A : Type} (m : M A) (caught : exn -> bool)
           (handler : exn -> M A) : M A :=
  fun t =>
    match m t with
    | Some (Raise e, t') =>
        if caught e then handler e t' else Some (Raise e, t')
    | r => r
    end.

(** [m] and then [cleanup], whatever [m] did; the result is that of [m]. *)
Definition finally {A : Type} (m : M A) (cleanup : M unit) : M A :=
  fun t =>
    match m t with
    | None => None
    | Some (r, t') =>
        match cleanup t' with
        | None => None
        | Some (Return _, t'') => Some (r, t'')
        | Some (Raise e, t'') => Some (Raise e, t'')
        end
    end.

(** [isinstance(e, Exception)] *)
Definition is_Exception (e : exn) : bool :=
  match e with
  | KeyboardInterrupt => false
  | _ => true
  end.

Definition is_RetryError (e : exn) : bool :=
  match e with
  | RetryError _ => true
  | _ => false
  end.

(** ** tenacity *)

(** [@tenacity.retry(retry=..., stop=stop_after_delay(max_delay),
    reraise=..., after=...)].  One turn: call the function; a value or an
    exception that is not retried ends the loop; otherwise run the [after]
    hook, stop if [max_delay] seconds have gone by since the first call
    (raising the last exception when [reraise], [RetryError] otherwise),
    else sleep and call again. *)
Record policy : Type := {
  retry_on : exn -> bool;
  max_delay : nat;
  reraise : bool;
  log_after : bool;
  wait : trace -> nat
}.

Fixpoint retrying {A : Type} (pol : policy)
         (attempt : trace -> nat * outcome A * trace)
         (fuel elapsed k : nat) : M A :=
  match fuel with
  | 0 => fun _ => None
  | S fuel' => fun t =>
      let '(d, r, t1) := attempt t in
      let elapsed1 := elapsed + d in
      match r with
      | Return a => Some (Return a, t1)
      | Raise e =>
          if retry_on pol e then
            let t2 := if log_after pol
                      then (t1 ++ [EvLog DEBUG (AfterAttempt k)])%list
                      else t1 in
            if (max_delay pol <=? elapsed1)%nat then
              Some (Raise (if reraise pol then e else RetryError e), t2)
            else
              let s := wait pol t2 in
              retrying pol attempt fuel' (elapsed1 + s) (S k)
                       (t2 ++ [EvSleep s])%list
          else Some (Raise e, t1)
      end
  end.

(** ** The session pipeline *)

Definition sw_ssh_connect_timeout : nat := 60.
Definition sw_ssh_connect_interval : nat := 10.

Definition retry_exc_types (e : exn) : bool :=
  match e with
  | SSHException _ | EOFError | IndexError => true
  | _ => false
  end.

Section Driver.

Variable dev : device.
Variable fuel : nat.

(** Modelled from the spec: [sw_lock.PoolLock] of
    [baremetal/common/locking.py], which is not among the sources.
    Entering takes one of the device's lock slots or raises; leaving
    gives the slot back and lets the exception of the body through. *)
Definition PoolLock {A : Type} (body : M A) : M A :=
  fun t =>
    match dev_acquire dev t with
    | Raise e => Some (Raise e, t)
    | Return _ => finally body (emit EvRelease) (t ++ [EvAcquire])%list
    end.

Definition connect_policy : policy :=
  {| retry_on := retry_exc_types;
     max_delay := sw_ssh_connect_timeout;
     reraise := true;
     log_after := true;
     wait := fun _ => sw_ssh_connect_interval |}.

Definition _create_connection : M unit :=
  retrying connect_policy
           (fun t => (dev_connect dev t, (t ++ [EvConnect])%list))
           fuel 0 1.

(** [with self._get_connection() as net_connect: body]. *)
Definition _get_connection {A : Type} (body : M A) : M A :=
  try_except _create_connection is_Exception
    (fun e =>
       (if is_RetryError e
        then log ERROR
               (Msg "Reached maximum SSH connection attempts, not retrying")
        else log ERROR (Msg "Unexpected exception during SSH connection") ;;;
             log ERROR (Traceback e)) ;;;
       raise (SwitchConnectionError (dev_ip dev) e)) ;;;
  finally body (emit EvDisconnect).

Definition send_config_set (cmd_set : list string) : M unit :=
  try_except
    (call EvConfigMode (dev_config_mode dev) ;;;
     output <- call (EvSendConfigSet cmd_set)
                    (fun t => dev_send_config_set dev t cmd_set) ;;
     lift (_check_output output (CmdSet cmd_set)) ;;;
     log DEBUG (Msg (String "010" "result:" ++ String "010" output)))
    (fun _ => true)
    (fun e => log ERROR (Traceback e) ;;; raise e).

Definition send_command (command : string) : M unit :=
  try_except
    ((if prefix "dis" command
      then call EvSessionPreparation (dev_session_preparation dev)
      else call EvConfigMode (dev_config_mode dev)) ;;;
     output <- call (EvSendCommand command)
                    (fun t => dev_send_command dev t command) ;;
     lift (_check_output output (OneCmd command)) ;;;
     log DEBUG (Msg (String "010" "result:" ++ String "010" output)))
    (fun _ => true)
    (fun e => log ERROR (Traceback e) ;;; raise e).

Definition save_policy : policy :=
  {| retry_on := is_Exception;
     max_delay := 30;
     reraise := false;
     log_after := false;
     wait := fun t => 2 + dev_random dev t mod 5 |}.

(** The inner [_save] of [save_configuration]. *)
Definition _save (cmd : string) (t : trace) : nat * outcome string * trace :=
  let '(d, r) := dev_save_config dev t in
  let t1 := (t ++ [EvSaveConfig cmd])%list in
  match r with
  | Raise e => (d, Raise e, t1)
  | Return output =>
      match _check_output output (OneCmd cmd) with
      | Raise e => (d, Raise e, t1)
      | Return _ => (d, Return output, t1)
      end
  end.

Definition save_configuration : M string :=
  retrying save_policy (_save "save") fuel 0 1.

Definition my_send_config_set (cmd_set : list string) : M (option string) :=
  match cmd_set with
  | [] => log DEBUG (Msg "Nothing to execute") ;;; ret None
  | _ =>
      try_except
        (PoolLock (_get_connection (send_config_set cmd_set)) ;;;
         ret (Some "successful"))
        is_Exception
        (fun e => log ERROR (Traceback e) ;;; raise e)
  end.

(** The last line of [my_send_command] is a [raise] outside of the
    [except] block: once the handler has logged, there is no active
    exception and the statement raises [RuntimeError]. *)
Definition my_send_command (command : string) : M (option string) :=
  match command with
  | EmptyString => log DEBUG (Msg "Nothing to execute") ;;; ret None
  | _ =>
      try_except
        (PoolLock (_get_connection
           (send_command command ;;;
            output <- save_configuration ;;
            ret (Some output))))
        is_Exception
        (fun e => log ERROR (Traceback e) ;;;
                  raise (RuntimeError "No active exception to reraise"))
  end.

(** [save]: when [save_configuration] raises [RetryError], the handler
    logs and leaves [output] unassigned for [return output]. *)
Definition save : M string :=
  PoolLock (_get_connection
    (output <- try_except
                 (o <- save_configuration ;; ret (Some o))
                 is_RetryError
                 (fun ex => log ERROR (MsgExn "save configuration failed:" ex)
                            ;;; ret None) ;;
     match output with
     | Some o => ret o
     | None => raise (UnboundLocalError "output")
     end)).

Definition set_vlan (ports : list port) : M (option string) :=
  let commands := set_vlan_commands ports in
  log DEBUG (MsgCmds "unset vlan command:" (_unset_vlan ports)) ;;;
  log DEBUG (MsgCmds "set vlan command:" commands) ;;;
  my_send_config_set commands.

Definition unset_vlan (ports : list port) : M (option string) :=
  let commands := unset_vlan_commands ports in
  log DEBUG (MsgCmds "unset vlan command:" (_unset_vlan ports)) ;;;
  log DEBUG (MsgCmds "unset vlan command:" commands) ;;;
  my_send_config_set commands.

Definition set_limit (limit_infos : list limit_info) : M (option string) :=
  let commands := set_limit_commands limit_infos in
  log DEBUG (MsgCmds "set limit command:" commands) ;;;
  my_send_config_set commands.

Variable py_int : string -> option Z.

Definition init_dhclient_config (sw : switch) (clean_cmd_set : list string)
  : M (option string) :=
  cmds <- lift (init_dhclient_cmds sw) ;;
  log DEBUG (MsgCmds "init dhclient ports command:" cmds) ;;;
  my_send_config_set (clean_cmd_set ++ cmds)%list.

Definition init_all_config (sw : switch) (template_name : string)
           (is_dhclient : bool) : M (option string) :=
  let clean_cmd_set := _clean_all_config sw None in
  log DEBUG (MsgCmds "clean config commands:" clean_cmd_set) ;;;
  if is_dhclient then init_dhclient_config sw clean_cmd_set
  else
    cmds <- lift (init_cmd_set py_int sw template_name) ;;
    log DEBUG (MsgCmds "init config commands:" cmds) ;;;
    match vlan_ids sw with
    | [] => ret (Some "vlan information is null")
    | _ => my_send_config_set (clean_cmd_set ++ cmds)%list
    end.

(** One query of [get_relations]: send, then parse the answer. *)
Definition query_relations (command : string) (relations : list Relation)
  : M (list Relation) :=
  datas <- my_send_command command ;;
  match datas with
  | None => raise (OtherException "AttributeError")
  | Some datas => lift (parse_response datas relations)
  end.

Fixpoint query_each_mac (special_mac : list string)
         (relations : list Relation) : M (list Relation) :=
  match special_mac with
  | [] => ret relations
  | item :: rest =>
      relations' <- query_relations ("display mac-address " ++ item)
                                    relations ;;
      query_each_mac rest relations'
  end.

(** [special_vlan] is [None] or an [int]; [0] is as false as [None]. *)
Definition get_relations (special_vlan : option Z)
           (special_mac : list string) : M (list Relation) :=
  relations <- query_each_mac special_mac [] ;;
  match special_vlan with
  | Some v =>
      if (v =? 0)%Z then ret relations
      else query_relations
             ("display mac-address vlan " ++ PyStr.str_of_Z v) relations
  | None => ret relations
  end.

End Driver.

(** ** Vocabulary of the statements, and the switches of the examples *)

(** A string without the character [c]. *)
Definition free_of (c : ascii) (s : string) : Prop :=
  ~ PyStr.occurs (String c "") s.

(** The markers, as a proposition on the response text. *)
Definition has_marker (output : string) : Prop :=
  PyStr.occurs "Error" output \/ PyStr.occurs "Wrong" output \/
  PyStr.occurs "Incomplete" output \/ PyStr.occurs "Unrecognized" output.

(** The stanzas the claim names, written out. *)
Definition trunk_set_stanza (p : port) : list string :=
  ["interface " ++ port_name p;
   "port link-type trunk";
   "port trunk allow-pass vlan " ++ gen_vlan_string (vlan_id p);
   "commit"; "q"].

Definition access_unset_stanza (p : port) : list string :=
  ["interface " ++ port_name p; "undo port link-type";
   "undo port default vlan"; "commit"; "q"].

Definition trunk_unset_stanza (p : port) : list string :=
  ["interface " ++ port_name p; "undo port link-type"; "commit"; "q"].

(** Every character of [s] satisfies [f]. *)
Fixpoint all_chars (f : ascii -> bool) (s : string) : bool :=
  match s with
  | EmptyString => true
  | String c s' => f c && all_chars f s'
  end.

(** White space only (possibly empty). *)
Definition blank (s : string) : Prop := all_chars PyStr.is_space s = true.

(** A token: not empty and without white space. *)
Definition word (s : string) : Prop :=
  s <> "" /\ all_chars (fun c => negb (PyStr.is_space c)) s = true.

(** What may follow a token: nothing, or text that starts with white
    space. *)
Definition starts_blank (s : string) : Prop :=
  match s with
  | EmptyString => True
  | String c _ => PyStr.is_space c = true
  end.

Definition is_hex (c : ascii) : bool :=
  let n := nat_of_ascii c in
  (((48 <=? n) && (n <=? 57)) || ((65 <=? n) && (n <=? 70))
   || ((97 <=? n) && (n <=? 102)))%nat.

(** Two hexadecimal digits. *)
Definition hex_pair (p : string) : Prop :=
  exists a b, p = String a (String b "") /\ is_hex a = true /\ is_hex b = true.

Definition newline : string := String "010" "".

(** The relation [get_relations] appends for a line of three fields or
    more. *)
Definition relation_of (line : string) : Relation :=
  let data := PyStr.findall_nonspace line in
  {| mac := mac_of_token (nth 0 data ""); port_of := nth 2 data "" |}.

(** A response of ten lines: seven of header, one data line whose first
    field is no MAC token, two of footer. *)
Definition table_with_total_line : string :=
  String.concat newline
    ["h1"; "h2"; "h3"; "h4"; "h5"; "h6"; "h7";
     "Total items displayed = 1";
     "f1"; "f2"].



(** Every attempt of [_save] fails: the device raises, or its answer
    carries an error marker. *)
Definition save_always_fails (dev : device) : Prop :=
  forall h, exists d e t1,
    _save dev "save" h = (d, Raise e, t1) /\ is_Exception e = true.

Definition busy_switch : device :=
  {| dev_ip := "10.0.0.1";
     dev_acquire := fun _ => Return tt;
     dev_connect := fun _ => (1, Return tt);
     dev_config_mode := fun _ => Return tt;
     dev_session_preparation := fun _ => Return tt;
     dev_send_config_set := fun _ _ => Return "";
     dev_send_command := fun _ _ => Return "";
     dev_save_config := fun _ => (1, Return "Error: The system is busy.");
     dev_random := fun _ => 3 |}.

(** The answer of a switch to [display mac-address vlan 10]: seven lines
    of header, one entry, two lines of footer. *)
Definition mac_table : string :=
  String.concat newline
    ["Flags: * - Backup";
     "       # - forwarding logical interface, operations cannot be performed";
     "           based on the interface.";
     "BD   : bridge-domain   Age : dynamic MAC learned time in seconds";
     "-----------------------------------------------------------------------";
     "MAC Address    VLAN/VSI/BD   Learned-From        Type                Age";
     "-----------------------------------------------------------------------";
     "0011-2233-4455 10/-/-        10GE1/0/1           dynamic             -";
     "-----------------------------------------------------------------------";
     "Total items: 1"].

Definition table_switch : device :=
  {| dev_ip := "10.0.0.1";
     dev_acquire := fun _ => Return tt;
     dev_connect := fun _ => (1, Return tt);
     dev_config_mode := fun _ => Return tt;
     dev_session_preparation := fun _ => Return tt;
     dev_send_config_set := fun _ _ => Return "";
     dev_send_command := fun _ _ => Return mac_table;
     dev_save_config :=
       fun _ => (1, Return "Info: Save the configuration successfully.");
     dev_random := fun _ => 0 |}.

(** ** The other command compilers and their senders *)

(** The [commands] of [unset_limit]. *)
Definition unset_limit_commands (inbound_ports outbound_ports : list string)
  : list string :=
  let inbound_cmd :=
    flat_map (fun port =>
      ["interface " ++ port; "undo qos car inbound"; "commit"; "q"])
      inbound_ports in
  let outbound_cmd :=
    flat_map (fun port =>
      ["interface " ++ port; "undo qos lr outbound"; "commit"; "q"])
      outbound_ports in
  (inbound_cmd ++ outbound_cmd ++ ["q"])%list.

(** The [commands] of [delete_limit_template]. *)
Definition delete_limit_template_commands (templates : list string)
  : list string :=
  let delete_command :=
    flat_map (fun template => ["undo qos car " ++ template; "commit"])
             templates in
  (delete_command ++ ["q"])%list.

(** The [commands] of [open_port]. *)
Definition open_port_commands (ports : list string) : list string :=
  let open_cmd :=
    flat_map (fun port =>
      ["interface " ++ port; "undo shutdown"; "commit"; "q"]) ports in
  (open_cmd ++ ["q"])%list.

(** The [commands] of [shutdown_port]. *)
Definition shutdown_port_commands (ports : list string) : list string :=
  let shutdown_cmd :=
    flat_map (fun port =>
      ["interface " ++ port; "shutdown"; "commit"; "q"]) ports in
  (shutdown_cmd ++ ["q"])%list.

(** The [clean_cmd_set] of [clean_all_config]. *)
Definition clean_all_config_commands (sw : switch) (template : option string)
  : list string :=
  (_clean_all_config sw template ++ ["commit"; "q"])%list.

Definition unset_limit (dev : device) (fuel : nat)
           (inbound_ports outbound_ports : list string) : M (option string) :=
  let commands := unset_limit_commands inbound_ports outbound_ports in
  log DEBUG (MsgCmds "unset limit command:" commands) ;;;
  my_send_config_set dev fuel commands.

Definition delete_limit_template (dev : device) (fuel : nat)
           (templates : list string) : M (option string) :=
  let commands := delete_limit_template_commands templates in
  log DEBUG (MsgCmds "delete template command:" commands) ;;;
  my_send_config_set dev fuel commands.

Definition open_port (dev : device) (fuel : nat) (ports : list string)
  : M (option string) :=
  let commands := open_port_commands ports in
  log DEBUG (MsgCmds "open ports command:" commands) ;;;
  my_send_config_set dev fuel commands.

Definition shutdown_port (dev : device) (fuel : nat) (ports : list string)
  : M (option string) :=
  let commands := shutdown_port_commands ports in
  log DEBUG (MsgCmds "close ports command:" commands) ;;;
  my_send_config_set dev fuel commands.

Definition clean_all_config (dev : device) (fuel : nat) (sw : switch)
           (template : option string) : M (option string) :=
  log DEBUG (MsgCmds "clean config commands:" (_clean_all_config sw template))
  ;;; my_send_config_set dev fuel (clean_all_config_commands sw template).

(** ** The session discipline, as a checker of traces *)

(** Where an operation stands: no lock slot; a slot but no session (the
    connect loop); a session; the session closed and the slot still held. *)
Inductive phase : Type := Idle | Locked | InSession | Closed.

Definition is_Return {A : Type} (r : outcome A) : bool :=
  match r with
  | Return _ => true
  | Raise _ => false
  end.

(** One event, seen after the history [hist].  [io_ok] says which exchanges
    with the switch the operation is allowed; whether a connect attempt
    opens the session is what the device answers after [hist]. *)
Definition step (dev : device) (io_ok : event -> bool) (hist : trace)
           (s : phase) (ev : event) : option phase :=
  match s, ev with
  | _, EvLog _ _ => Some s
  | Idle, EvAcquire => Some Locked
  | Locked, EvConnect =>
      if is_Return (snd (dev_connect dev hist)) then Some InSession
      else Some Locked
  | Locked, EvSleep _ => Some Locked
  | Locked, EvRelease => Some Idle
  | InSession, EvSleep _ => Some InSession
  | InSession, EvDisconnect => Some Closed
  | InSession, (EvConfigMode | EvSessionPreparation | EvSendConfigSet _
               | EvSendCommand _ | EvSaveConfig _) =>
      if io_ok ev then Some InSession else None
  | Closed, EvRelease => Some Idle
  | _, _ => None
  end.

Fixpoint run (dev : device) (io_ok : event -> bool) (hist : trace)
         (s : phase) (evs : list event) : option phase :=
  match evs with
  | [] => Some s
  | ev :: rest =>
      match step dev io_ok hist s ev with
      | Some s' => run dev io_ok (hist ++ [ev])%list s' rest
      | None => None
      end
  end.

(** The exchanges of a configuration batch, of a single command, of a
    display command, and of a save. *)
Definition batch_io (ev : event) : bool :=
  match ev with
  | EvConfigMode | EvSendConfigSet _ => true
  | _ => false
  end.

Definition command_io (ev : event) : bool :=
  match ev with
  | EvConfigMode | EvSessionPreparation | EvSendCommand _ | EvSaveConfig _ =>
      true
  | _ => false
  end.

Definition display_io (ev : event) : bool :=
  match ev with
  | EvSessionPreparation | EvSendCommand _ | EvSaveConfig _ => true
  | _ => false
  end.

Definition save_io (ev : event) : bool :=
  match ev with
  | EvSaveConfig _ => true
  | _ => false
  end.

(** [m], started in phase [s] after any history, ends, extends the trace
    by events the checker accepts, and leaves outcome and phase in [Q]. *)
Definition runs {A : Type} (dev : device) (io_ok : event -> bool)
           (s : phase) (m : M A) (Q : outcome A -> phase -> Prop) : Prop :=
  forall t, exists r new s',
    m t = Some (r, (t ++ new)%list)
    /\ run dev io_ok t s new = Some s' /\ Q r s'.

(** The trace after [n] failed connect attempts that began at [t]. *)
Fixpoint after_failed_attempts (t : trace) (k n : nat) : trace :=
  match n with
  | 0 => t
  | S n' =>
      after_failed_attempts
        (t ++ [EvConnect; EvLog DEBUG (AfterAttempt k);
               EvSleep sw_ssh_connect_interval])%list (S k) n'
  end.

(** The seconds gone by when the attempt after [n] failures begins, the
    [i]-th attempt taking [d i] seconds. *)
Fixpoint elapsed_after (d : nat -> nat) (i n : nat) : nat :=
  match n with
  | 0 => 0
  | S n' => d i + sw_ssh_connect_interval + elapsed_after d (S i) n'
  end.

Definition count_event (p : event -> bool) (evs : list event) : nat :=
  List.length (filter p evs).

Definition is_connect (ev : event) : bool :=
  match ev with EvConnect => true | _ => false end.

Definition is_save (ev : event) : bool :=
  match ev with EvSaveConfig _ => true | _ => false end.

Definition is_sleep (ev : event) : bool :=
  match ev with EvSleep _ => true | _ => false end.

(** Computations that end in the phase in which they began. *)
Definition stays {A : Type} (dev : device) (io_ok : event -> bool)
           (s : phase) (m : M A) : Prop :=
  runs dev io_ok s m (fun _ s1 => s1 = s).

(** A lock pool that never grants a slot. *)
Definition pool_exhausted (dev : device) (e : exn) : Prop :=
  forall h, dev_acquire dev h = Raise e.

Definition crowded_switch : device :=
  {| dev_ip := "10.0.0.1";
     dev_acquire := fun _ => Raise (OtherException "LockTimeout");
     dev_connect := fun _ => (1, Return tt);
     dev_config_mode := fun _ => Return tt;
     dev_session_preparation := fun _ => Return tt;
     dev_send_config_set := fun _ _ => Return "";
     dev_send_command := fun _ _ => Return "";
     dev_save_config := fun _ => (1, Return "");
     dev_random := fun _ => 0 |}.

Definition refusing_switch : device :=
  {| dev_ip := "10.0.0.1";
     dev_acquire := fun _ => Return tt;
     dev_connect := fun _ => (3, Raise (OtherException "ConnectionRefused"));
     dev_config_mode := fun _ => Return tt;
     dev_session_preparation := fun _ => Return tt;
     dev_send_config_set := fun _ _ => Return "";
     dev_send_command := fun _ _ => Return "";
     dev_save_config := fun _ => (1, Return "");
     dev_random := fun _ => 0 |}.

(** A switch whose first three connects end in [EOFError]. *)
Definition flaky_switch : device :=
  {| dev_ip := "10.0.0.1";
     dev_acquire := fun _ => Return tt;
     dev_connect :=
       fun h => if (count_event is_connect h <? 3)%nat
                then (2, Raise EOFError) else (2, Return tt);
     dev_config_mode := fun _ => Return tt;
     dev_session_preparation := fun _ => Return tt;
     dev_send_config_set := fun _ _ => Return "";
     dev_send_command := fun _ _ => Return "";
     dev_save_config := fun _ => (1, Return "");
     dev_random := fun _ => 0 |}.

Definition strict_switch : device :=
  {| dev_ip := "10.0.0.1";
     dev_acquire := fun _ => Return tt;
     dev_connect := fun _ => (1, Return tt);
     dev_config_mode := fun _ => Return tt;
     dev_session_preparation := fun _ => Return tt;
     dev_send_config_set :=
       fun _ _ => Return "Error: Unrecognized command found at '^' position.";
     dev_send_command := fun _ _ => Return "";
     dev_save_config := fun _ => (1, Return "");
     dev_random := fun _ => 0 |}.

(** The exceptions a relation query lets through. *)
Definition query_failure (e : exn) : Prop :=
  e = RuntimeError "No active exception to reraise"
  \/ e = IndexError
  \/ is_Exception e = false.

(** What [my_send_command] runs inside its [try], for a command that is
    not empty. *)
Definition command_session (dev : device) (fuel : nat) (command : string)
  : M (option string) :=
  PoolLock dev
    (_get_connection dev fuel
       (send_command dev command ;;;
        output <- save_configuration dev fuel ;;
        ret (Some output))).

Definition strict_command_switch : device :=
  {| dev_ip := "10.0.0.1";
     dev_acquire := fun _ => Return tt;
     dev_connect := fun _ => (1, Return tt);
     dev_config_mode := fun _ => Return tt;
     dev_session_preparation := fun _ => Return tt;
     dev_send_config_set := fun _ _ => Return "";
     dev_send_command :=
       fun _ _ => Return "Error: Unrecognized command found at '^' position.";
     dev_save_config := fun _ => (1, Return "");
     dev_random := fun _ => 0 |}.

(** * Theorems *)

Section SearchFacts.

Lemma prefix_app (p s : string) :
  prefix p s = true <-> exists post, s = p ++ post.
Proof.
  revert s; induction p as [|a p IH]; intros s; simpl.
  - destruct s; simpl; split; eauto.
  - destruct s as [|b s]; simpl.
    + split; [discriminate | intros [post H]; discriminate].
    + destruct (ascii_dec a b) as [->|Hab].
      * rewrite IH. split; intros [post H]; exists post.
        -- now subst.
        -- now inversion H.
      * split; [discriminate|].
        intros [post H]. inversion H. congruence.
Qed.

Lemma search_occurs (pat s : string) :
  PyStr.search pat s = true <-> PyStr.occurs pat s.
Proof.
  unfold PyStr.occurs.
  induction s as [|c s IH]; cbn [PyStr.search].
  - rewrite orb_false_r, prefix_app. split.
    + intros [post H]. exists "", post. exact H.
    + intros [pre [post H]]. destruct pre; simpl in H.
      * now exists post.
      * discriminate.
  - rewrite orb_true_iff, prefix_app, IH. split.
    + intros [[post H]|[pre [post H]]].
      * exists "", post. exact H.
      * exists (String c pre), post. simpl. now f_equal.
    + intros [pre [post H]]. destruct pre as [|a pre]; simpl in H.
      * left. now exists post.
      * right. inversion H. now exists pre, post.
Qed.

Lemma occurs_empty (pat : string) :
  pat <> "" -> ~ PyStr.occurs pat "".
Proof.
  intros Hp [pre [post H]].
  destruct pre; simpl in H; [|discriminate].
  destruct pat; [congruence | discriminate].
Qed.

End SearchFacts.

Lemma check_patterns_spec (output : string) (commands : cmdarg) :
  (has_marker output /\
   check_patterns ERROR_MSG_PATTERNS output commands
   = Raise (ConfigSwitchError commands output))
  \/ (~ has_marker output /\
      check_patterns ERROR_MSG_PATTERNS output commands
      = Return (Some output)).
Proof.
  unfold has_marker, ERROR_MSG_PATTERNS; simpl.
  rewrite <- !search_occurs.
  destruct (PyStr.search "Error" output); [left; auto|].
  destruct (PyStr.search "Wrong" output); [left; auto|].
  destruct (PyStr.search "Incomplete" output); [left; auto|].
  destruct (PyStr.search "Unrecognized" output); [left; auto|].
  right. split; [|reflexivity]. intuition discriminate.
Qed.

(** C1. [_check_output] raises exactly when the response is non-empty and
    contains one of the markers [Error], [Wrong], [Incomplete],
    [Unrecognized] (case-sensitive); the exception is [ConfigSwitchError]
    with the command and the raw output.  An empty response returns [None]
    and a marker-free one returns the output: neither raises. *)
Theorem check_output_raises_iff_marker (output : string) (commands : cmdarg) :
  ((exists e, _check_output output commands = Raise e)
   <-> output <> "" /\ has_marker output)
  /\ (forall e, _check_output output commands = Raise e ->
                e = ConfigSwitchError commands output)
  /\ _check_output "" commands = Return None
  /\ (output <> "" -> ~ has_marker output ->
      _check_output output commands = Return (Some output)).
Proof.
  destruct output as [|a s].
  - split; [|split; [|split]]; try reflexivity; try discriminate.
    + split; [intros [e He]; discriminate | intros [Hne _]; congruence].
    + congruence.
  - change (_check_output (String a s) commands)
      with (check_patterns ERROR_MSG_PATTERNS (String a s) commands).
    destruct (check_patterns_spec (String a s) commands) as [[Hm Hr]|[Hn Hr]];
      rewrite Hr; (split; [|split; [|split]]); try reflexivity.
    + split; [intros _; split; [discriminate | exact Hm] | eauto].
    + intros e He. congruence.
    + intros _ Hn. contradiction.
    + split; [intros [e He]; discriminate | intros [_ Hm]; contradiction].
    + discriminate.
Qed.

Lemma check_output_raises_iff_marker_witness :
  _check_output "Error: busy" (OneCmd "save")
  = Raise (ConfigSwitchError (OneCmd "save") "Error: busy")
  /\ _check_output "Info: saved" (OneCmd "save") = Return (Some "Info: saved").
Proof.
  pose proof (check_output_raises_iff_marker "Error: busy" (OneCmd "save"))
    as [[_ Hraise] [Hexn _]].
  pose proof (check_output_raises_iff_marker "Info: saved" (OneCmd "save"))
    as [_ [_ [_ Hok]]].
  split.
  - destruct Hraise as [e He].
    + split; [discriminate|]. left. exists "", ": busy". reflexivity.
    + rewrite He. f_equal. apply Hexn. exact He.
  - apply Hok; [discriminate|].
    unfold has_marker. rewrite <- !search_occurs.
    vm_compute. intuition discriminate.
Defined.

(** ** The VLAN string *)

Section StringFacts.

Lemma sapp_assoc (a b c : string) : (a ++ b) ++ c = a ++ (b ++ c).
Proof. induction a as [|x a IH]; simpl; [reflexivity | now rewrite IH]. Qed.

Lemma sapp_nil_r (a : string) : a ++ "" = a.
Proof. induction a as [|x a IH]; simpl; [reflexivity | now rewrite IH]. Qed.

Lemma free_of_cons (c x : ascii) (s : string) :
  free_of c (String x s) <-> x <> c /\ free_of c s.
Proof.
  unfold free_of, PyStr.occurs. split.
  - intros H. split.
    + intros ->. apply H. exists "", s. reflexivity.
    + intros [pre [post E]]. apply H.
      exists (String x pre), post. simpl. now rewrite E.
  - intros [Hx Hs] [pre [post E]].
    destruct pre as [|y pre]; simpl in E; inversion E; subst.
    + congruence.
    + apply Hs. now exists pre, post.
Qed.

Lemma free_of_nil (c : ascii) : free_of c "".
Proof.
  intros [pre [post E]]. destruct pre; discriminate.
Qed.

Lemma free_of_app (c : ascii) (a b : string) :
  free_of c (a ++ b) <-> free_of c a /\ free_of c b.
Proof.
  induction a as [|x a IH]; simpl.
  - split; [intros H; split; [apply free_of_nil | exact H] | tauto].
  - rewrite !free_of_cons, IH. tauto.
Qed.

Lemma replace_char_free (c : ascii) (new s : string) :
  free_of c s -> PyStr.replace_char c new s = s.
Proof.
  induction s as [|x s IH]; simpl; [reflexivity|].
  rewrite free_of_cons. intros [Hx Hs].
  destruct (Ascii.eqb_spec x c); [contradiction|].
  now rewrite IH.
Qed.

Lemma replace_char_app (c : ascii) (new a b : string) :
  PyStr.replace_char c new (a ++ b)
  = PyStr.replace_char c new a ++ PyStr.replace_char c new b.
Proof.
  induction a as [|x a IH]; simpl; [reflexivity|].
  destruct (Ascii.eqb x c); rewrite IH; simpl;
    [now rewrite sapp_assoc | reflexivity].
Qed.

Lemma search_free (c : ascii) (s : string) :
  free_of c s -> PyStr.search (String c "") s = false.
Proof.
  intros H. destruct (PyStr.search (String c "") s) eqn:E; [|reflexivity].
  apply search_occurs in E. contradiction.
Qed.

End StringFacts.

Lemma gen_vlan_fold (vlans : list string) (acc : string) :
  fold_left gen_vlan_step vlans acc = acc ++ gen_vlan_string vlans.
Proof.
  unfold gen_vlan_string.
  revert acc; induction vlans as [|v vs IH]; intros acc; simpl.
  - now rewrite sapp_nil_r.
  - rewrite IH, (IH (gen_vlan_step "" v)).
    unfold gen_vlan_step. simpl. now rewrite sapp_assoc.
Qed.

(** C6. [gen_vlan_string] turns a hyphenated range [A-B] into the literal
    [A to B] and leaves a singleton as it is; each segment is followed by
    one space, and the segments come in input order (the string of a
    concatenation of lists is the concatenation of their strings). *)
Theorem gen_vlan_string_segments (A B v : string) (vs ws : list string) :
  (free_of "-" A -> free_of "-" B ->
   gen_vlan_string [A ++ "-" ++ B] = A ++ " to " ++ B ++ " ")
  /\ (free_of "-" v -> gen_vlan_string [v] = v ++ " ")
  /\ gen_vlan_string [] = ""
  /\ gen_vlan_string (vs ++ ws) = gen_vlan_string vs ++ gen_vlan_string ws
  /\ gen_vlan_string ["10-20"] = "10 to 20 "
  /\ gen_vlan_string ["10-20"; "30"; "40-50"] = "10 to 20 30 40 to 50 ".
Proof.
  split; [|split; [|split; [|split; [|split]]]]; try reflexivity.
  - intros HA HB. unfold gen_vlan_string. cbn [fold_left].
    unfold gen_vlan_step.
    assert (Hocc : PyStr.search "-" (A ++ "-" ++ B) = true)
      by (apply search_occurs; now exists A, B).
    rewrite Hocc, !replace_char_app.
    rewrite (replace_char_free _ _ A HA), (replace_char_free _ _ B HB).
    simpl. now rewrite !sapp_assoc.
  - intros Hv. unfold gen_vlan_string. cbn [fold_left].
    unfold gen_vlan_step. now rewrite (search_free _ _ Hv).
  - unfold gen_vlan_string at 1. rewrite fold_left_app, gen_vlan_fold.
    reflexivity.
Qed.

Lemma gen_vlan_string_segments_witness :
  gen_vlan_string ["100-200"] = "100 to 200 "
  /\ gen_vlan_string ["7"] = "7 ".
Proof.
  assert (F : forall s, PyStr.search "-" s = false -> free_of "-" s).
  { intros s E H. apply search_occurs in H. congruence. }
  pose proof (gen_vlan_string_segments "100" "200" "7" [] []) as [H1 [H2 _]].
  split; [apply H1 | apply H2]; apply F; reflexivity.
Defined.

(** ** VLAN command order *)

Lemma unset_vlan_app (ps qs : list port) :
  _unset_vlan (ps ++ qs) = (_unset_vlan ps ++ _unset_vlan qs)%list.
Proof. unfold _unset_vlan. apply flat_map_app. Qed.

(** ** Rate limits *)

Lemma cbs_bound (cir : Z) : (Z.min 524288 (cir * 2) <= 524288)%Z.
Proof. apply Z.le_min_l. Qed.

(** C10. Every outbound rate-limit command ([qos lr ...]) in the batch of
    [set_limit] and in the batch of [init_all_config] is built
    from [cir = bandwidth * 1024] and [cbs = min(524288, 2 * cir)], and
    that [cbs] is at most 524288 whatever the integer bandwidth. *)
Theorem outbound_limit_cir_cbs (py_int : string -> option Z)
        (limit_infos : list limit_info) (sw : switch)
        (template : string) (c : string) :
  (In c (set_limit_commands limit_infos) -> prefix "qos lr " c = true ->
   exists info,
     In info limit_infos
     /\ c = qos_lr_cmd (bandwidth info * 1024)
                       (Z.min 524288 (bandwidth info * 1024 * 2))
     /\ (Z.min 524288 (bandwidth info * 1024 * 2) <= 524288)%Z)
  /\ (forall cmds,
        init_cmd_set py_int sw template = Return cmds ->
        In c (_clean_all_config sw None ++ cmds)%list ->
        prefix "qos lr " c = true ->
        exists bw,
          py_int (last (PyStr.split_on "-" template) "") = Some bw
          /\ c = qos_lr_cmd (bw * 1024) (Z.min 524288 (bw * 1024 * 2))
          /\ (Z.min 524288 (bw * 1024 * 2) <= 524288)%Z).
Proof.
  split.
  - unfold set_limit_commands. intros Hin Hp.
    apply in_app_or in Hin. destruct Hin as [Hin|Hin].
    + apply in_flat_map in Hin. destruct Hin as [info [_ Hc]].
      simpl in Hc. exfalso.
      destruct Hc as [<-|[<-|[<-|[<-|[]]]]]; simpl in Hp; discriminate.
    + apply in_app_or in Hin. destruct Hin as [Hin|Hin].
      * apply in_flat_map in Hin. destruct Hin as [info [Hinfo Hc]].
        apply in_flat_map in Hc. destruct Hc as [prt [_ Hc]].
        simpl in Hc.
        destruct Hc as [<-|[<-|[<-|[<-|[]]]]];
          try (simpl in Hp; discriminate).
        exists info. split; [exact Hinfo|]. split; [reflexivity|].
        apply cbs_bound.
      * simpl in Hin. destruct Hin as [<-|[]]. simpl in Hp. discriminate.
  - intros cmds Hcmds Hin Hp. unfold init_cmd_set in Hcmds.
    destruct (py_int (last (PyStr.split_on "-" template) "")) as [bw|];
      [|discriminate].
    injection Hcmds as <-.
    exists bw. split; [reflexivity|].
    apply in_app_or in Hin. destruct Hin as [Hin|Hin].
    { exfalso. unfold _clean_all_config in Hin. rewrite app_nil_r in Hin.
      apply in_flat_map in Hin. destruct Hin as [prt [_ Hc]].
      cbn [app] in Hc.
      destruct Hc as [<-|[<-|[<-|[<-|[<-|[<-|[<-|[]]]]]]]];
        simpl in Hp; discriminate. }
    cbn [app] in Hin.
    destruct Hin as [<-|[<-|Hin]]; try (simpl in Hp; discriminate).
    apply in_app_or in Hin. destruct Hin as [Hin|Hin].
    + apply in_flat_map in Hin. destruct Hin as [prt [_ Hc]].
      cbn [app] in Hc.
      destruct Hc as [<-|[<-|[<-|[<-|[<-|[<-|[<-|[]]]]]]]];
        try (simpl in Hp; discriminate).
      split; [reflexivity | apply cbs_bound].
    + exfalso.
      destruct Hin as [<-|[<-|[]]]; simpl in Hp; discriminate.
Qed.

Lemma outbound_limit_cir_cbs_witness :
  exists info,
    In info [{| template_name := "t1"; inbound_port := "GE1/0/1";
                outbound_ports := ["GE1/0/2"]; bandwidth := 300 |}]
    /\ "qos lr cir 307200 kbps cbs 524288 kbytes outbound"
       = qos_lr_cmd (bandwidth info * 1024)
                    (Z.min 524288 (bandwidth info * 1024 * 2))
    /\ (Z.min 524288 (bandwidth info * 1024 * 2) <= 524288)%Z.
Proof.
  apply (proj1 (outbound_limit_cir_cbs (fun _ => None)
           [{| template_name := "t1"; inbound_port := "GE1/0/1";
               outbound_ports := ["GE1/0/2"]; bandwidth := 300 |}]
           {| vlan_ids := []; ports := [] |} ""
           "qos lr cir 307200 kbps cbs 524288 kbytes outbound")).
  - simpl. tauto.
  - reflexivity.
Defined.

(** ** The relation parser *)

Section ScanFacts.

Lemma scan_blank (ws s : string) :
  blank ws -> PyStr.scan_nonspace (ws ++ s) "" = PyStr.scan_nonspace s "".
Proof.
  unfold blank. induction ws as [|c ws IH]; simpl; [reflexivity|].
  intros H. apply andb_true_iff in H. destruct H as [Hc Hws].
  rewrite Hc. now apply IH.
Qed.

Lemma scan_word_chars (t s cur : string) :
  all_chars (fun c => negb (PyStr.is_space c)) t = true ->
  PyStr.scan_nonspace (t ++ s) cur = PyStr.scan_nonspace s (cur ++ t).
Proof.
  revert cur. induction t as [|c t IH]; intros cur; simpl.
  - now rewrite sapp_nil_r.
  - intros H. apply andb_true_iff in H. destruct H as [Hc Ht].
    apply negb_true_iff in Hc. rewrite Hc, IH by exact Ht.
    now rewrite sapp_assoc.
Qed.

Lemma scan_flush (rest cur : string) :
  cur <> "" -> starts_blank rest ->
  PyStr.scan_nonspace rest cur = cur :: PyStr.scan_nonspace rest "".
Proof.
  intros Hcur Hrest. destruct rest as [|c r]; simpl in *.
  - destruct cur; [congruence | reflexivity].
  - rewrite Hrest. destruct cur; [congruence | reflexivity].
Qed.

(** One token, the white space before it, and what follows. *)
Lemma findall_token (ws t rest : string) :
  blank ws -> word t -> starts_blank rest ->
  PyStr.findall_nonspace (ws ++ t ++ rest)
  = t :: PyStr.findall_nonspace rest.
Proof.
  intros Hws [Hne Ht] Hrest. unfold PyStr.findall_nonspace.
  rewrite scan_blank by exact Hws.
  rewrite scan_word_chars by exact Ht.
  simpl. now apply scan_flush.
Qed.

Lemma starts_blank_app (ws s : string) :
  blank ws -> ws <> "" -> starts_blank (ws ++ s).
Proof.
  unfold blank. destruct ws as [|c ws]; [congruence|]. simpl.
  intros H _. apply andb_true_iff in H. tauto.
Qed.

End ScanFacts.

Section SplitFacts.

Variable sep : ascii.

Lemma split_on_not_nil (s : string) : PyStr.split_on sep s <> [].
Proof.
  induction s as [|c s IH]; simpl; [discriminate|].
  destruct (Ascii.eqb c sep); [discriminate|].
  destruct (PyStr.split_on sep s); discriminate.
Qed.

Lemma split_on_free (s : string) :
  free_of sep s -> PyStr.split_on sep s = [s].
Proof.
  induction s as [|c s IH]; simpl; [reflexivity|].
  rewrite free_of_cons. intros [Hc Hs].
  destruct (Ascii.eqb_spec c sep); [contradiction|].
  now rewrite IH.
Qed.

Lemma split_on_app_sep (a b : string) :
  free_of sep a ->
  PyStr.split_on sep (a ++ String sep b) = a :: PyStr.split_on sep b.
Proof.
  induction a as [|c a IH]; simpl.
  - intros _. now rewrite Ascii.eqb_refl.
  - rewrite free_of_cons. intros [Hc Ha].
    destruct (Ascii.eqb_spec c sep); [contradiction|].
    now rewrite IH.
Qed.

(** [sep.join(parts).split(sep)] gives the parts back. *)
Lemma split_on_concat (parts : list string) :
  parts <> [] -> Forall (free_of sep) parts ->
  PyStr.split_on sep (String.concat (String sep "") parts) = parts.
Proof.
  induction parts as [|a parts IH]; [congruence|].
  intros _ H. inversion H as [|x l Ha Hl]; subst.
  destruct parts as [|b parts].
  - simpl. now apply split_on_free.
  - change (String.concat (String sep "") (a :: b :: parts))
      with (a ++ String sep (String.concat (String sep "") (b :: parts))).
    rewrite split_on_app_sep by exact Ha.
    f_equal. apply IH; [discriminate | exact Hl].
Qed.

End SplitFacts.

Lemma is_hex_plain (a : ascii) :
  is_hex a = true -> a <> "-"%char /\ PyStr.is_space a = false.
Proof.
  destruct a as [b0 b1 b2 b3 b4 b5 b6 b7].
  destruct b0, b1, b2, b3, b4, b5, b6, b7; vm_compute;
    intros H; try discriminate H; (split; [discriminate | reflexivity]).
Qed.

Lemma hex_pair_word (p q : string) :
  hex_pair p -> hex_pair q ->
  all_chars (fun c => negb (PyStr.is_space c)) (p ++ q) = true.
Proof.
  intros [a [b [-> [Ha Hb]]]] [c [d [-> [Hc Hd]]]]. simpl.
  destruct (is_hex_plain _ Ha) as [_ ->], (is_hex_plain _ Hb) as [_ ->],
           (is_hex_plain _ Hc) as [_ ->], (is_hex_plain _ Hd) as [_ ->].
  reflexivity.
Qed.

Lemma hex_block_free (p q : string) :
  hex_pair p -> hex_pair q -> free_of "-" (p ++ q).
Proof.
  intros [a [b [-> [Ha Hb]]]] [c [d [-> [Hc Hd]]]]. simpl.
  repeat (apply free_of_cons; split; [now apply is_hex_plain|]).
  apply free_of_nil.
Qed.

(** The token [AABB-CCDD-EEFF] becomes [AA:BB:CC:DD:EE:FF]. *)
Lemma mac_of_hex_token (p1 p2 p3 p4 p5 p6 : string) :
  Forall hex_pair [p1; p2; p3; p4; p5; p6] ->
  mac_of_token (p1 ++ p2 ++ "-" ++ p3 ++ p4 ++ "-" ++ p5 ++ p6)
  = p1 ++ ":" ++ p2 ++ ":" ++ p3 ++ ":" ++ p4 ++ ":" ++ p5 ++ ":" ++ p6.
Proof.
  intros H.
  inversion H as [|? ? H1 H']; subst. inversion H' as [|? ? H2 H'']; subst.
  inversion H'' as [|? ? H3 G]; subst. inversion G as [|? ? H4 G']; subst.
  inversion G' as [|? ? H5 G'']; subst. inversion G'' as [|? ? H6 _]; subst.
  unfold mac_of_token.
  replace (p1 ++ p2 ++ "-" ++ p3 ++ p4 ++ "-" ++ p5 ++ p6)
    with ((p1 ++ p2) ++ String "-" ((p3 ++ p4) ++ String "-" (p5 ++ p6)))
    by (now rewrite !sapp_assoc).
  rewrite !split_on_app_sep by now apply hex_block_free.
  rewrite split_on_free by now apply hex_block_free.
  destruct H1 as [a1 [b1 [-> _]]], H2 as [a2 [b2 [-> _]]],
           H3 as [a3 [b3 [-> _]]], H4 as [a4 [b4 [-> _]]],
           H5 as [a5 [b5 [-> _]]], H6 as [a6 [b6 [-> _]]].
  reflexivity.
Qed.

Lemma findall_three (ws0 t0 ws1 t1 ws2 t2 rest : string) :
  blank ws0 -> word t0 -> blank ws1 -> ws1 <> "" -> word t1 ->
  blank ws2 -> ws2 <> "" -> word t2 -> starts_blank rest ->
  PyStr.findall_nonspace (ws0 ++ t0 ++ ws1 ++ t1 ++ ws2 ++ t2 ++ rest)
  = t0 :: t1 :: t2 :: PyStr.findall_nonspace rest.
Proof.
  intros B0 W0 B1 N1 W1 B2 N2 W2 R.
  rewrite findall_token; auto using starts_blank_app.
  rewrite findall_token; auto using starts_blank_app.
  rewrite findall_token; auto.
Qed.

(** C5. On a data line whose first field is a MAC token of three blocks of
    four hexadecimal digits, the relation has the MAC in the colon form of
    six digit pairs ([0011-2233-4455] gives [00:11:22:33:44:55]); and on
    any line of at least three fields the MAC comes from the first field
    and the port is the third field. *)
Theorem relation_of_data_line
        (p1 p2 p3 p4 p5 p6 ws0 t0 ws1 t1 ws2 t2 rest : string) :
  blank ws0 -> blank ws1 -> ws1 <> "" -> word t1 ->
  blank ws2 -> ws2 <> "" -> word t2 -> starts_blank rest ->
  (Forall hex_pair [p1; p2; p3; p4; p5; p6] ->
   parse_line (ws0 ++ (p1 ++ p2 ++ "-" ++ p3 ++ p4 ++ "-" ++ p5 ++ p6)
               ++ ws1 ++ t1 ++ ws2 ++ t2 ++ rest)
   = Return {| mac := p1 ++ ":" ++ p2 ++ ":" ++ p3 ++ ":" ++ p4 ++ ":"
                      ++ p5 ++ ":" ++ p6;
               port_of := t2 |})
  /\ (word t0 ->
      parse_line (ws0 ++ t0 ++ ws1 ++ t1 ++ ws2 ++ t2 ++ rest)
      = Return {| mac := mac_of_token t0; port_of := t2 |})
  /\ mac_of_token "0011-2233-4455" = "00:11:22:33:44:55".
Proof.
  intros B0 B1 N1 W1 B2 N2 W2 R.
  assert (G : forall t, word t ->
            parse_line (ws0 ++ t ++ ws1 ++ t1 ++ ws2 ++ t2 ++ rest)
            = Return {| mac := mac_of_token t; port_of := t2 |}).
  { intros t Wt. unfold parse_line.
    rewrite findall_three by assumption. reflexivity. }
  split; [|split; [exact (G t0) | reflexivity]].
  intros H. rewrite G.
  - now rewrite mac_of_hex_token.
  - inversion H as [|? ? H1 H']; subst. inversion H' as [|? ? H2 H'']; subst.
    inversion H'' as [|? ? H3 K]; subst. inversion K as [|? ? H4 K']; subst.
    inversion K' as [|? ? H5 K'']; subst. inversion K'' as [|? ? H6 _]; subst.
    split.
    + destruct H1 as [a [b [-> _]]]. discriminate.
    + replace (p1 ++ p2 ++ "-" ++ p3 ++ p4 ++ "-" ++ p5 ++ p6)
        with ((p1 ++ p2) ++ "-" ++ (p3 ++ p4) ++ "-" ++ (p5 ++ p6))
        by (now rewrite !sapp_assoc).
      assert (A : forall x y, all_chars (fun c => negb (PyStr.is_space c)) x
                              = true ->
                  all_chars (fun c => negb (PyStr.is_space c)) y = true ->
                  all_chars (fun c => negb (PyStr.is_space c)) (x ++ y)
                  = true).
      { induction x as [|c x IH]; simpl; intros y Hx Hy; [exact Hy|].
        apply andb_true_iff in Hx. destruct Hx as [-> Hx]. now apply IH. }
      apply A; [now apply hex_pair_word|].
      apply (A "-"); [reflexivity|].
      apply A; [now apply hex_pair_word|].
      apply (A "-"); [reflexivity|]. now apply hex_pair_word.
Qed.

Lemma relation_of_data_line_witness :
  parse_line "0011-2233-4455   1/-/-   GE1/0/1  dynamic"
  = Return {| mac := "00:11:22:33:44:55"; port_of := "GE1/0/1" |}.
Proof.
  assert (Hx : forall a b, is_hex a = true -> is_hex b = true ->
                           hex_pair (String a (String b ""))).
  { intros a b Ha Hb. exists a, b. auto. }
  refine (proj1 (relation_of_data_line "00" "11" "22" "33" "44" "55"
                   "" "x" "   " "1/-/-" "   " "GE1/0/1" "  dynamic"
                   _ _ _ _ _ _ _ _) _);
    try reflexivity; try discriminate; try (split; [discriminate|reflexivity]).
  repeat constructor; apply Hx; reflexivity.
Defined.

(** ** Which lines are parsed, and which fail *)

Section ParseFacts.

Lemma firstn_length_app {A : Type} (l1 l2 : list A) :
  firstn (List.length l1) (l1 ++ l2) = l1.
Proof. induction l1 as [|a l1 IH]; simpl; [now destruct l2 | now rewrite IH]. Qed.

Lemma skipn_length_app {A : Type} (l1 l2 : list A) :
  skipn (List.length l1) (l1 ++ l2) = l2.
Proof. induction l1 as [|a l1 IH]; simpl; [reflexivity | exact IH]. Qed.

Lemma drop_header_footer_app {A : Type} (hd body tl : list A) :
  List.length hd = 7 -> List.length tl = 2 ->
  PyStr.drop_header_footer (hd ++ body ++ tl) = body.
Proof.
  intros Hh Ht. unfold PyStr.drop_header_footer.
  rewrite app_assoc.
  replace (List.length ((hd ++ body) ++ tl) - 2) with (List.length (hd ++ body))
    by (rewrite (length_app (hd ++ body)); lia).
  rewrite firstn_length_app, <- Hh. apply skipn_length_app.
Qed.

Lemma drop_header_footer_short {A : Type} (l : list A) :
  List.length l <= 9 -> PyStr.drop_header_footer l = [].
Proof.
  intros H. unfold PyStr.drop_header_footer.
  apply skipn_all2. rewrite length_firstn. lia.
Qed.

Lemma parse_line_short (line : string) :
  List.length (PyStr.findall_nonspace line) < 3 ->
  parse_line line = Raise IndexError.
Proof.
  unfold parse_line.
  destruct (PyStr.findall_nonspace line) as [|a [|b [|c l]]]; simpl;
    intros H; try reflexivity; lia.
Qed.

Lemma parse_line_long (line : string) :
  3 <= List.length (PyStr.findall_nonspace line) ->
  parse_line line = Return (relation_of line).
Proof.
  unfold parse_line, relation_of.
  destruct (PyStr.findall_nonspace line) as [|a [|b [|c l]]]; simpl;
    intros H; try reflexivity; lia.
Qed.

Lemma parse_lines_all_long (body : list string) (rel : list Relation) :
  Forall (fun l => 3 <= List.length (PyStr.findall_nonspace l)) body ->
  parse_lines body rel = Return (rel ++ map relation_of body)%list.
Proof.
  revert rel. induction body as [|l body IH]; intros rel H; simpl.
  - now rewrite app_nil_r.
  - inversion H as [|x y Hl Hb]; subst.
    rewrite (parse_line_long l Hl), (IH _ Hb), <- app_assoc. reflexivity.
Qed.

Lemma parse_lines_some_short (body : list string) (rel : list Relation) :
  Exists (fun l => List.length (PyStr.findall_nonspace l) < 3) body ->
  parse_lines body rel = Raise IndexError.
Proof.
  revert rel. induction body as [|l body IH]; intros rel H; simpl.
  - inversion H.
  - destruct (Nat.lt_ge_cases (List.length (PyStr.findall_nonspace l)) 3)
      as [Hs|Hl].
    + now rewrite (parse_line_short l Hs).
    + rewrite (parse_line_long l Hl). apply IH.
      inversion H as [x y Hx|x y Hy]; subst; [lia | exact Hy].
Qed.

End ParseFacts.

(** C9, as stated, fails: a line of three fields or more whose first field
    has no hyphen-grouped digit pairs raises nothing; slicing regroups
    whatever is there. *)
Lemma unhyphenated_first_field_raises_nothing :
  parse_response table_with_total_line []
  = Return [{| mac := "To:ta"; port_of := "displayed" |}]
  /\ parse_response table_with_total_line [] <> Raise IndexError.
Proof. split; [reflexivity | discriminate]. Qed.

(** C9, amended.  Of the newline-split response only the lines after the
    first 7 and before the last 2 are parsed (none when there are 9 lines
    or fewer).  If one of them has fewer than three fields the parse
    raises [IndexError] and no relation is returned; if all have three
    fields or more it raises nothing and appends one relation per line,
    whatever the first field looks like. *)
Theorem parsed_lines_and_index_error
        (hd body tl lines : list string) (rel : list Relation) :
  (List.length hd = 7 -> List.length tl = 2 ->
   Forall (free_of "010") (hd ++ body ++ tl) ->
   parse_response (String.concat newline (hd ++ body ++ tl)) rel
   = parse_lines body rel)
  /\ (lines <> [] -> List.length lines <= 9 ->
      Forall (free_of "010") lines ->
      parse_response (String.concat newline lines) rel = Return rel)
  /\ (Exists (fun l => List.length (PyStr.findall_nonspace l) < 3) body ->
      parse_lines body rel = Raise IndexError)
  /\ (Forall (fun l => 3 <= List.length (PyStr.findall_nonspace l)) body ->
      parse_lines body rel = Return (rel ++ map relation_of body)%list).
Proof.
  split; [|split; [|split]].
  - intros Hh Ht Hf. unfold parse_response, newline.
    rewrite split_on_concat; [|destruct hd; [discriminate Hh|discriminate]
                              |exact Hf].
    now rewrite drop_header_footer_app.
  - intros Hne Hl Hf. unfold parse_response, newline.
    rewrite split_on_concat by assumption.
    now rewrite drop_header_footer_short.
  - apply parse_lines_some_short.
  - apply parse_lines_all_long.
Qed.

Lemma parsed_lines_and_index_error_witness :
  parse_response
    (String.concat newline
       ["h1"; "h2"; "h3"; "h4"; "h5"; "h6"; "h7";
        "0011-2233-4455 1/-/- GE1/0/1 dynamic"; "0011-2233-4466 1/-/-";
        "f1"; "f2"]) []
  = Raise IndexError.
Proof.
  assert (F : forall s, PyStr.search newline s = false -> free_of "010" s).
  { intros s E H. apply search_occurs in H. unfold newline in E.
    congruence. }
  destruct (parsed_lines_and_index_error
              ["h1"; "h2"; "h3"; "h4"; "h5"; "h6"; "h7"]
              ["0011-2233-4455 1/-/- GE1/0/1 dynamic"; "0011-2233-4466 1/-/-"]
              ["f1"; "f2"] ["x"] []) as [H1 [_ [H3 _]]].
  refine (eq_trans (H1 eq_refl eq_refl _) (H3 _)).
  - repeat constructor; apply F; reflexivity.
  - apply Exists_cons_tl, Exists_cons_hd. vm_compute. lia.
Defined.

(** ** The retry loops *)

Section RetryFacts.

Context {A : Type}.
Variable pol : policy.
Variable attempt : trace -> nat * outcome A * trace.

(** With waits of at least [w >= 1] seconds, the attempt that starts the
    loop with [fuel] left cannot be followed by more than
    [(max_delay - elapsed) / w] others: enough fuel always gives a result. *)
Lemma retrying_total (w : nat) :
  1 <= w -> (forall t, w <= wait pol t) ->
  forall fuel elapsed k t,
    1 <= fuel -> max_delay pol <= elapsed + (fuel - 1) * w ->
    exists r t', retrying pol attempt fuel elapsed k t = Some (r, t').
Proof.
  intros Hw Hwait. induction fuel as [|fuel IH]; intros elapsed k t Hf Hd.
  - lia.
  - simpl. destruct (attempt t) as [[d r] t1]. destruct r as [a|e]; eauto.
    destruct (retry_on pol e); eauto.
    destruct (Nat.leb_spec (max_delay pol) (elapsed + d)) as [Hs|Hs]; eauto.
    apply IH.
    + destruct fuel; simpl in Hd; lia.
    + match goal with |- context [wait pol ?x] => specialize (Hwait x) end.
      replace (S fuel - 1) with fuel in Hd by lia.
      destruct fuel; [lia|]. simpl. nia.
Qed.

(** A value that the loop returns is the value of one of its attempts, and
    the trace ends where that attempt ended. *)
Lemma retrying_Return (fuel elapsed k : nat) (t t' : trace) (a : A) :
  retrying pol attempt fuel elapsed k t = Some (Return a, t') ->
  exists h d, attempt h = (d, Return a, t').
Proof.
  revert elapsed k t. induction fuel as [|fuel IH]; intros elapsed k t;
    simpl; [discriminate|].
  destruct (attempt t) as [[d r] t1] eqn:E. destruct r as [a'|e].
  - intros H. inversion H; subst. eauto.
  - destruct (retry_on pol e); [|discriminate].
    destruct (max_delay pol <=? elapsed + d)%nat.
    + destruct (reraise pol); discriminate.
    + apply IH.
Qed.

(** When every attempt fails with an exception that is retried, the loop
    ends by exhaustion: it raises the exception of an attempt when
    [reraise], and [RetryError] around it otherwise. *)
Lemma retrying_exhausted (w : nat) :
  1 <= w -> (forall t, w <= wait pol t) ->
  (forall h, exists d e t1,
      attempt h = (d, Raise e, t1) /\ retry_on pol e = true) ->
  forall fuel elapsed k t,
    1 <= fuel -> max_delay pol <= elapsed + (fuel - 1) * w ->
    exists e t',
      retrying pol attempt fuel elapsed k t
      = Some (Raise (if reraise pol then e else RetryError e), t')
      /\ retry_on pol e = true
      /\ exists h d t1, attempt h = (d, Raise e, t1).
Proof.
  intros Hw Hwait Hfail.
  induction fuel as [|fuel IH]; intros elapsed k t Hf Hd.
  - lia.
  - simpl. destruct (Hfail t) as [d [e [t1 [E He]]]]. rewrite E, He.
    destruct (Nat.leb_spec (max_delay pol) (elapsed + d)) as [Hs|Hs].
    + eauto 10.
    + apply IH.
      * destruct fuel; simpl in Hd; lia.
      * match goal with |- context [wait pol ?x] => specialize (Hwait x) end.
        replace (S fuel - 1) with fuel in Hd by lia.
        destruct fuel; [lia|]. simpl. nia.
Qed.

End RetryFacts.

(** Seven attempts are enough for the connect loop and sixteen for the
    save loop: with that much fuel both always end. *)
Lemma retry_loops_end (dev : device) (fuel : nat) (t : trace) :
  16 <= fuel ->
  (exists r t', _create_connection dev fuel t = Some (r, t'))
  /\ (exists r t', save_configuration dev fuel t = Some (r, t')).
Proof.
  intros Hfuel. split.
  - apply (retrying_total (connect_policy) _ 10); simpl;
      unfold sw_ssh_connect_interval, sw_ssh_connect_timeout; intros; lia.
  - apply (retrying_total (save_policy dev) _ 2); simpl; intros; lia.
Qed.

(** ** Connecting *)



(** ** Nothing to execute *)

(** C8. An empty batch and an empty command return [None] at once: the
    only new event is the debug message; no lock slot is taken, no
    connection is attempted and nothing is sent. *)
Theorem nothing_to_execute (dev : device) (fuel : nat) (t : trace) :
  my_send_config_set dev fuel [] t
  = Some (Return None, (t ++ [EvLog DEBUG (Msg "Nothing to execute")])%list)
  /\ my_send_command dev fuel "" t
     = Some (Return None, (t ++ [EvLog DEBUG (Msg "Nothing to execute")])%list).
Proof. split; reflexivity. Qed.

(** ** Saving *)

Lemma save_configuration_exhausted (dev : device) (fuel : nat) (t : trace) :
  16 <= fuel -> save_always_fails dev ->
  exists e t',
    save_configuration dev fuel t = Some (Raise (RetryError e), t')
    /\ exists h d t1, _save dev "save" h = (d, Raise e, t1).
Proof.
  intros Hfuel Hfail.
  destruct (retrying_exhausted (save_policy dev) (_save dev "save") 2)
    with (fuel := fuel) (elapsed := 0) (k := 1) (t := t)
    as [e [t' [Hloop [_ Hh]]]].
  - lia.
  - intros; simpl; lia.
  - exact Hfail.
  - lia.
  - simpl. lia.
  - exists e, t'. split; [exact Hloop | exact Hh].
Qed.

(** C2, on the code.  Once the save policy is exhausted,
    [save_configuration] raises [tenacity.RetryError]; [save] catches and
    logs it, and its [return output] then raises [UnboundLocalError],
    which reaches the caller after the session and the lock slot are
    given back. *)
Theorem save_exhaustion_reaches_caller
        (dev : device) (fuel : nat) (t : trace) (d0 : nat) :
  16 <= fuel -> save_always_fails dev ->
  dev_acquire dev t = Return tt ->
  dev_connect dev (t ++ [EvAcquire])%list = (d0, Return tt) ->
  (exists e t', save_configuration dev fuel t = Some (Raise (RetryError e), t'))
  /\ (exists e t1,
        save dev fuel t
        = Some (Raise (UnboundLocalError "output"),
                (t1 ++ [EvLog ERROR (MsgExn "save configuration failed:"
                                            (RetryError e));
                        EvDisconnect; EvRelease])%list)).
Proof.
  intros Hfuel Hfail Hacq Hconn. split.
  - destruct (save_configuration_exhausted dev fuel t Hfuel Hfail)
      as [e [t' [H _]]]. eauto.
  - destruct (save_configuration_exhausted dev fuel
                ((t ++ [EvAcquire]) ++ [EvConnect])%list Hfuel Hfail)
      as [e [t' [H _]]].
    exists e, t'.
    unfold save, PoolLock. rewrite Hacq.
    cbv [finally _get_connection bind try_except _create_connection].
    destruct fuel as [|fuel']; [lia|].
    cbn [retrying]. rewrite Hconn. cbv beta iota. rewrite H. cbn.
    rewrite <- !app_assoc. reflexivity.
Qed.

Lemma save_exhaustion_reaches_caller_witness :
  (exists e t',
      save_configuration busy_switch 16 [] = Some (Raise (RetryError e), t'))
  /\ (exists e t1,
        save busy_switch 16 []
        = Some (Raise (UnboundLocalError "output"),
                (t1 ++ [EvLog ERROR (MsgExn "save configuration failed:"
                                            (RetryError e));
                        EvDisconnect; EvRelease])%list)).
Proof.
  apply (save_exhaustion_reaches_caller busy_switch 16 [] 1).
  - lia.
  - intros h. eexists. eexists. eexists. split; reflexivity.
  - reflexivity.
  - reflexivity.
Defined.

(** The run of [save] on a switch that answers every save with an error
    marker: six attempts in 31 seconds, the error message, and the
    exception. *)
Example save_on_busy_switch :
  save busy_switch 16 []
  = Some (Raise (UnboundLocalError "output"),
          [EvAcquire; EvConnect;
           EvSaveConfig "save"; EvSleep 5; EvSaveConfig "save"; EvSleep 5;
           EvSaveConfig "save"; EvSleep 5; EvSaveConfig "save"; EvSleep 5;
           EvSaveConfig "save"; EvSleep 5; EvSaveConfig "save";
           EvLog ERROR
             (MsgExn "save configuration failed:"
                (RetryError
                   (ConfigSwitchError (OneCmd "save")
                      "Error: The system is busy.")));
           EvDisconnect; EvRelease]).
Proof. reflexivity. Qed.

(** ** A single command *)

Section MonadFacts.

Context {A B : Type}.

Lemma bind_Return (m : M A) (k : A -> M B) (t t' : trace) (b : B) :
  bind m k t = Some (Return b, t') ->
  exists a t1, m t = Some (Return a, t1) /\ k a t1 = Some (Return b, t').
Proof.
  unfold bind. destruct (m t) as [[[a|e] t1]|]; try discriminate. eauto.
Qed.

Lemma finally_emit (m : M A) (ev : event) (t t' : trace) (r : outcome A) :
  finally m (emit ev) t = Some (r, t') ->
  exists t1, m t = Some (r, t1) /\ t' = (t1 ++ [ev])%list.
Proof.
  unfold finally, emit. destruct (m t) as [[r1 t1]|]; [|discriminate].
  intros H. inversion H; subst. eauto.
Qed.

End MonadFacts.

(** C3, on the code.  Whenever [my_send_command] returns a value for a
    command that is not empty, the last thing it did in the session was a
    save, and the value is the answer to that save, not the answer to the
    command. *)
Theorem single_command_runs_save
        (dev : device) (fuel : nat) (command : string) (t t' : trace)
        (v : option string) :
  command <> "" ->
  my_send_command dev fuel command t = Some (Return v, t') ->
  exists h d output,
    dev_save_config dev h = (d, Return output)
    /\ v = Some output
    /\ t' = (h ++ [EvSaveConfig "save"; EvDisconnect; EvRelease])%list.
Proof.
  intros Hne H. destruct command as [|a s]; [congruence|].
  unfold my_send_command, try_except in H.
  destruct (PoolLock dev _ t) as [[[v0|e] t0]|] eqn:HP; try discriminate.
  - inversion H; subst v0 t0. clear H.
    unfold PoolLock in HP.
    destruct (dev_acquire dev t); [|discriminate].
    apply finally_emit in HP. destruct HP as [t1 [HG ->]].
    unfold _get_connection in HG.
    apply bind_Return in HG. destruct HG as [u [t2 [_ HB]]].
    apply finally_emit in HB. destruct HB as [t3 [HB ->]].
    apply bind_Return in HB. destruct HB as [u' [t4 [_ HS]]].
    apply bind_Return in HS. destruct HS as [o [t5 [HS HR]]].
    inversion HR; subst. clear HR.
    apply retrying_Return in HS. destruct HS as [h [d HS]].
    unfold _save in HS.
    destruct (dev_save_config dev h) as [d' r] eqn:Hd.
    destruct r as [o'|e]; [|discriminate].
    destruct (_check_output o' (OneCmd "save")); [|discriminate].
    inversion HS; subst.
    exists h, d, o. split; [exact Hd|]. split; [reflexivity|].
    now rewrite <- !app_assoc.
  - destruct (is_Exception e); discriminate.
Qed.

Lemma single_command_runs_save_witness :
  exists h d output,
    dev_save_config table_switch h = (d, Return output)
    /\ Some "Info: Save the configuration successfully." = Some output
    /\ [EvAcquire; EvConnect; EvSessionPreparation;
        EvSendCommand "display mac-address vlan 10";
        EvLog DEBUG (Msg (String "010" "result:" ++ String "010" mac_table));
        EvSaveConfig "save"; EvDisconnect; EvRelease]
       = (h ++ [EvSaveConfig "save"; EvDisconnect; EvRelease])%list.
Proof.
  apply (single_command_runs_save table_switch 16
           "display mac-address vlan 10" []).
  - discriminate.
  - reflexivity.
Defined.

(** The same query through [get_relations]: the table holds one relation,
    the caller gets none, because what is parsed is the answer to the
    save. *)
Example relations_lost_behind_save :
  parse_response mac_table []
  = Return [{| mac := "00:11:22:33:44:55"; port_of := "10GE1/0/1" |}]
  /\ exists t', get_relations table_switch 16 (Some 10%Z) [] []
                = Some (Return [], t').
Proof. split; [reflexivity | eexists; reflexivity]. Qed.

(** * Further properties of the driver *)

(** ** VLAN strings and batches *)

Lemma replace_char_removes (c : ascii) (new s : string) :
  free_of c new -> free_of c (PyStr.replace_char c new s).
Proof.
  intros Hnew. induction s as [|x s IH]; simpl.
  - apply free_of_nil.
  - destruct (Ascii.eqb_spec x c) as [->|Hx].
    + apply free_of_app. split; assumption.
    + apply free_of_cons. split; assumption.
Qed.

Lemma gen_vlan_step_free (acc v : string) :
  free_of "-" acc -> free_of "-" (gen_vlan_step acc v).
Proof.
  intros Hacc. unfold gen_vlan_step.
  apply free_of_app. split; [exact Hacc|].
  apply free_of_app. split.
  - destruct (PyStr.search "-" v) eqn:E.
    + apply replace_char_removes. intros H. apply search_occurs in H.
      discriminate H.
    + intros H. apply search_occurs in H. congruence.
  - intros H. apply search_occurs in H. discriminate H.
Qed.

(** X1. Whatever the VLAN strings are (several hyphens, none, empty), the
    string that [gen_vlan_string] builds holds no hyphen. *)
Theorem gen_vlan_string_has_no_hyphen (vlans : list string) :
  free_of "-" (gen_vlan_string vlans).
Proof.
  unfold gen_vlan_string.
  assert (G : forall acc, free_of "-" acc ->
                          free_of "-" (fold_left gen_vlan_step vlans acc)).
  { induction vlans as [|v vs IH]; intros acc Hacc; simpl; [exact Hacc|].
    apply IH. now apply gen_vlan_step_free. }
  apply G, free_of_nil.
Qed.

Lemma send_without_slot (dev : device) (fuel : nat) (e : exn)
      (pre : list string) (t : trace) :
  is_Exception e = true -> dev_acquire dev t = Raise e ->
  my_send_config_set dev fuel (pre ++ ["q"]) t
  = Some (Raise e, (t ++ [EvLog ERROR (Traceback e)])%list).
Proof.
  intros He Ha.
  assert (E : exists c cs, (pre ++ ["q"])%list = c :: cs)
    by (destruct pre; simpl; eauto).
  destruct E as [c [cs ->]].
  unfold my_send_config_set, try_except, bind, PoolLock.
  rewrite Ha, He. reflexivity.
Qed.

(** X2. No compiler yields an empty batch: each one ends with the closing
    [q], also for empty lists of ports or templates.  So none of these
    operations takes the "Nothing to execute" return: each asks for a lock
    slot, and when the pool grants none it raises the pool's exception
    after logging the batch and the traceback, without a connect attempt. *)
Theorem every_batch_asks_for_a_slot
        (dev : device) (fuel : nat) (e : exn) (t : trace)
        (ps : list port) (infos : list limit_info) (l1 l2 : list string)
        (sw : switch) (template : option string) :
  is_Exception e = true -> pool_exhausted dev e ->
  let failed (text : string) (cmds : list string) :=
    Some (Raise (A := option string) e,
          (t ++ [EvLog DEBUG (MsgCmds text cmds);
                 EvLog ERROR (Traceback e)])%list) in
  set_limit dev fuel infos t
  = failed "set limit command:" (set_limit_commands infos)
  /\ unset_limit dev fuel l1 l2 t
     = failed "unset limit command:" (unset_limit_commands l1 l2)
  /\ delete_limit_template dev fuel l1 t
     = failed "delete template command:" (delete_limit_template_commands l1)
  /\ open_port dev fuel l1 t
     = failed "open ports command:" (open_port_commands l1)
  /\ shutdown_port dev fuel l1 t
     = failed "close ports command:" (shutdown_port_commands l1)
  /\ clean_all_config dev fuel sw template t
     = failed "clean config commands:" (_clean_all_config sw template)
  /\ set_vlan dev fuel ps t
     = Some (Raise e,
             (t ++ [EvLog DEBUG (MsgCmds "unset vlan command:"
                                         (_unset_vlan ps));
                    EvLog DEBUG (MsgCmds "set vlan command:"
                                         (set_vlan_commands ps));
                    EvLog ERROR (Traceback e)])%list)
  /\ unset_vlan dev fuel ps t
     = Some (Raise e,
             (t ++ [EvLog DEBUG (MsgCmds "unset vlan command:"
                                         (_unset_vlan ps));
                    EvLog DEBUG (MsgCmds "unset vlan command:"
                                         (unset_vlan_commands ps));
                    EvLog ERROR (Traceback e)])%list).
Proof.
  intros He Hpool failed. subst failed.
  assert (S1 : forall text pre,
             (log DEBUG (MsgCmds text (pre ++ ["q"])%list) ;;;
              my_send_config_set dev fuel (pre ++ ["q"])%list) t
             = Some (Raise e,
                     (t ++ [EvLog DEBUG (MsgCmds text (pre ++ ["q"])%list);
                            EvLog ERROR (Traceback e)])%list)).
  { intros text pre. unfold bind, log, emit.
    rewrite (send_without_slot dev fuel e pre _ He (Hpool _)).
    now rewrite <- app_assoc. }
  repeat split.
  - unfold set_limit, set_limit_commands. rewrite app_assoc. apply S1.
  - unfold unset_limit, unset_limit_commands. rewrite app_assoc. apply S1.
  - apply S1.
  - apply S1.
  - apply S1.
  - unfold clean_all_config, clean_all_config_commands, bind, log, emit.
    change ["commit"; "q"] with (["commit"] ++ ["q"])%list.
    rewrite app_assoc.
    rewrite (send_without_slot dev fuel e _ _ He (Hpool _)).
    now rewrite <- app_assoc.
  - unfold set_vlan, set_vlan_commands, bind, log, emit.
    rewrite app_assoc.
    rewrite (send_without_slot dev fuel e _ _ He (Hpool _)).
    now rewrite <- !app_assoc.
  - unfold unset_vlan, unset_vlan_commands, bind, log, emit.
    rewrite (send_without_slot dev fuel e _ _ He (Hpool _)).
    now rewrite <- !app_assoc.
Qed.

Lemma every_batch_asks_for_a_slot_witness :
  open_port crowded_switch 16 [] []
  = Some (Raise (OtherException "LockTimeout"),
          [EvLog DEBUG (MsgCmds "open ports command:" ["q"]);
           EvLog ERROR (Traceback (OtherException "LockTimeout"))]).
Proof.
  apply (every_batch_asks_for_a_slot crowded_switch 16
           (OtherException "LockTimeout") [] [] [] [] []
           {| vlan_ids := []; ports := [] |} None).
  - reflexivity.
  - intros h. reflexivity.
Defined.

(** ** [init_all_config] *)

(** X3. With [is_dhclient], [init_all_config] needs exactly one VLAN id:
    with none or several it raises [ConfigInternalVlanError] after the
    one debug message about the clean-up commands, and touches neither
    the lock pool nor the switch; with exactly one it sends the clean-up
    commands followed by the access-port stanzas, [commit] and [q]. *)
Theorem init_dhclient_needs_one_vlan
        (dev : device) (fuel : nat) (py_int : string -> option Z)
        (sw : switch) (template : string) (t : trace) :
  (List.length (vlan_ids sw) <> 1 ->
   init_all_config dev fuel py_int sw template true t
   = Some (Raise ConfigInternalVlanError,
           (t ++ [EvLog DEBUG (MsgCmds "clean config commands:"
                                       (_clean_all_config sw None))])%list))
  /\ (forall vlan, vlan_ids sw = [vlan] ->
      let cmds :=
        (flat_map (fun port =>
                     [("interface " ++ port)%string; "port link-type access";
                      ("port default vlan " ++ vlan)%string; "q"]) (ports sw)
         ++ ["commit"; "q"])%list in
      init_all_config dev fuel py_int sw template true t
      = my_send_config_set dev fuel (_clean_all_config sw None ++ cmds)
          (t ++ [EvLog DEBUG (MsgCmds "clean config commands:"
                                      (_clean_all_config sw None));
                 EvLog DEBUG (MsgCmds "init dhclient ports command:" cmds)])
            %list).
Proof.
  split.
  - intros Hlen.
    unfold init_all_config, init_dhclient_config, init_dhclient_cmds,
      bind, log, emit, lift.
    destruct (vlan_ids sw) as [|v [|v' vs]]; simpl in Hlen;
      try reflexivity; congruence.
  - intros vlan Hv cmds. subst cmds.
    unfold init_all_config, init_dhclient_config, init_dhclient_cmds,
      bind, log, emit, lift.
    rewrite Hv. now rewrite <- app_assoc.
Qed.

Lemma init_dhclient_needs_one_vlan_witness :
  init_all_config crowded_switch 16 (fun _ => None)
    {| vlan_ids := ["10"; "20"]; ports := ["GE1/0/1"] |} "bw-100" true []
  = Some (Raise ConfigInternalVlanError,
          [EvLog DEBUG
             (MsgCmds "clean config commands:"
                (_clean_all_config
                   {| vlan_ids := ["10"; "20"]; ports := ["GE1/0/1"] |}
                   None))]).
Proof.
  apply (init_dhclient_needs_one_vlan crowded_switch 16 (fun _ => None)
           {| vlan_ids := ["10"; "20"]; ports := ["GE1/0/1"] |} "bw-100" []).
  simpl. lia.
Defined.

(** X4. Without [is_dhclient], [init_all_config] reads the bandwidth from
    what follows the last hyphen of the template name.  If that is no
    integer it raises [ValueError], also when there is no VLAN; if it is
    one and the switch has no VLAN id, it returns the text
    [vlan information is null].  In both cases only debug messages are
    written: no lock slot, no session, nothing sent. *)
Theorem init_all_config_without_bandwidth_or_vlan
        (dev : device) (fuel : nat) (py_int : string -> option Z)
        (sw : switch) (template : string) (t : trace) :
  (py_int (last (PyStr.split_on "-" template) "") = None ->
   init_all_config dev fuel py_int sw template false t
   = Some (Raise ValueError,
           (t ++ [EvLog DEBUG (MsgCmds "clean config commands:"
                                       (_clean_all_config sw None))])%list))
  /\ (forall bw cmds,
        py_int (last (PyStr.split_on "-" template) "") = Some bw ->
        vlan_ids sw = [] ->
        init_cmd_set py_int sw template = Return cmds ->
        init_all_config dev fuel py_int sw template false t
        = Some (Return (Some "vlan information is null"),
                (t ++ [EvLog DEBUG (MsgCmds "clean config commands:"
                                            (_clean_all_config sw None));
                       EvLog DEBUG (MsgCmds "init config commands:" cmds)])
                  %list)).
Proof.
  split.
  - intros Hp.
    unfold init_all_config, init_cmd_set, bind, log, emit, lift.
    now rewrite Hp.
  - intros bw cmds Hp Hv Hc.
    unfold init_all_config, bind, log, emit, lift.
    rewrite Hc, Hv. now rewrite <- app_assoc.
Qed.

Lemma init_all_config_without_bandwidth_or_vlan_witness :
  init_all_config crowded_switch 16 (fun _ => None)
    {| vlan_ids := []; ports := ["GE1/0/1"] |} "gold" false []
  = Some (Raise ValueError,
          [EvLog DEBUG
             (MsgCmds "clean config commands:"
                (_clean_all_config
                   {| vlan_ids := []; ports := ["GE1/0/1"] |} None))]).
Proof.
  apply (init_all_config_without_bandwidth_or_vlan crowded_switch 16
           (fun _ => None) {| vlan_ids := []; ports := ["GE1/0/1"] |}
           "gold" []).
  reflexivity.
Defined.

(** ** More on the relation parser *)

Section TokenFacts.

Lemma all_chars_app (f : ascii -> bool) (a b : string) :
  all_chars f (a ++ b) = all_chars f a && all_chars f b.
Proof.
  induction a as [|c a IH]; simpl; [reflexivity|].
  now rewrite IH, andb_assoc.
Qed.

Lemma scan_words (s cur : string) :
  all_chars (fun c => negb (PyStr.is_space c)) cur = true ->
  Forall word (PyStr.scan_nonspace s cur).
Proof.
  revert cur. induction s as [|c s IH]; intros cur Hcur; simpl.
  - destruct cur as [|x cur]; constructor; [|constructor].
    split; [discriminate | exact Hcur].
  - destruct (PyStr.is_space c) eqn:Hc.
    + destruct cur as [|x cur]; [now apply IH|].
      constructor; [split; [discriminate | exact Hcur] | now apply IH].
    + apply IH. rewrite all_chars_app, Hcur. simpl. now rewrite Hc.
Qed.

Lemma split_on_blocks_free (sep : ascii) (s : string) :
  Forall (free_of sep) (PyStr.split_on sep s).
Proof.
  induction s as [|c s IH]; simpl.
  - constructor; [apply free_of_nil | constructor].
  - destruct (Ascii.eqb_spec c sep) as [->|Hc].
    + constructor; [apply free_of_nil | exact IH].
    + destruct (PyStr.split_on sep s) as [|h tl].
      * constructor; [|constructor].
        apply free_of_cons. split; [exact Hc | apply free_of_nil].
      * inversion IH as [|x l Hh Htl]; subst.
        constructor; [|exact Htl]. apply free_of_cons. now split.
Qed.

Lemma substring_free (c : ascii) (s : string) (n m : nat) :
  free_of c s -> free_of c (substring n m s).
Proof.
  revert n m. induction s as [|x s IH]; intros n m H.
  - destruct n, m; simpl; apply free_of_nil.
  - apply free_of_cons in H. destruct H as [Hx Hs].
    destruct n as [|n]; simpl.
    + destruct m as [|m]; [apply free_of_nil|].
      apply free_of_cons. split; [exact Hx | now apply IH].
    + now apply IH.
Qed.

Lemma concat_free (c : ascii) (sep : string) (l : list string) :
  free_of c sep -> Forall (free_of c) l -> free_of c (String.concat sep l).
Proof.
  intros Hsep. induction l as [|a l IH]; intros H; simpl.
  - apply free_of_nil.
  - inversion H as [|x y Ha Hl]; subst.
    destruct l as [|b l]; [exact Ha|].
    apply free_of_app. split; [exact Ha|].
    apply free_of_app. split; [exact Hsep | now apply IH].
Qed.

End TokenFacts.

Lemma mac_of_token_free (tok : string) : free_of "-" (mac_of_token tok).
Proof.
  unfold mac_of_token. apply concat_free.
  - intros H. apply search_occurs in H. discriminate H.
  - apply Forall_map.
    eapply Forall_impl; [|apply (split_on_blocks_free "-" tok)].
    intros b Hb. unfold PyStr.slice.
    apply free_of_app. split; [now apply substring_free|].
    apply free_of_app. split; [|now apply substring_free].
    intros H. apply search_occurs in H. discriminate H.
Qed.

(** X5. Whatever the line, a relation that [parse_line] returns has a
    port that is not empty and holds no white space, and a MAC without
    any hyphen; and the only exception [parse_line] raises is
    [IndexError]. *)
Theorem relation_fields_are_clean (line : string) :
  (forall r, parse_line line = Return r ->
             word (port_of r) /\ free_of "-" (mac r))
  /\ (forall e, parse_line line = Raise e -> e = IndexError).
Proof.
  unfold parse_line.
  pose proof (scan_words line "" eq_refl) as Hw.
  fold (PyStr.findall_nonspace line) in Hw.
  destruct (PyStr.findall_nonspace line) as [|a [|b [|c l]]]; simpl;
    split; intros x Hx; try discriminate Hx; try congruence.
  inversion Hx; subst; simpl. split; [|apply mac_of_token_free].
  inversion Hw as [|? ? _ H1]; subst. inversion H1 as [|? ? _ H2]; subst.
  inversion H2; subst. assumption.
Qed.

(** X6. Reading back fields that were joined by single spaces gives the
    fields: [findall] over the joined line returns exactly the list of
    tokens, in order. *)
Theorem findall_of_joined_fields (fields : list string) :
  Forall word fields ->
  PyStr.findall_nonspace (String.concat " " fields) = fields.
Proof.
  induction fields as [|a fields IH]; intros H; [reflexivity|].
  inversion H as [|x y Ha Hf]; subst.
  destruct fields as [|b fields].
  - simpl. rewrite <- (sapp_nil_r a) at 1.
    change (a ++ "") with ("" ++ a ++ "").
    now rewrite findall_token.
  - change (String.concat " " (a :: b :: fields))
      with ("" ++ a ++ (" " ++ String.concat " " (b :: fields))).
    rewrite findall_token; [|reflexivity|exact Ha|reflexivity].
    f_equal. unfold PyStr.findall_nonspace.
    rewrite scan_blank by reflexivity. now apply IH.
Qed.

Lemma findall_of_joined_fields_witness :
  PyStr.findall_nonspace "0011-2233-4455 10/-/- 10GE1/0/1 dynamic -"
  = ["0011-2233-4455"; "10/-/-"; "10GE1/0/1"; "dynamic"; "-"].
Proof.
  apply (findall_of_joined_fields
           ["0011-2233-4455"; "10/-/-"; "10GE1/0/1"; "dynamic"; "-"]).
  repeat constructor; discriminate.
Defined.

Lemma parse_lines_cases (lines : list string) (rel : list Relation) :
  (Exists (fun l => List.length (PyStr.findall_nonspace l) < 3) lines
   /\ parse_lines lines rel = Raise IndexError)
  \/ (Forall (fun l => 3 <= List.length (PyStr.findall_nonspace l)) lines
      /\ parse_lines lines rel = Return (rel ++ map relation_of lines)%list).
Proof.
  assert (D : Exists (fun l => List.length (PyStr.findall_nonspace l) < 3)
                     lines
              \/ Forall (fun l => 3 <= List.length (PyStr.findall_nonspace l))
                        lines).
  { induction lines as [|l lines IH]; [right; constructor|].
    destruct (Nat.lt_ge_cases (List.length (PyStr.findall_nonspace l)) 3).
    - left. now constructor.
    - destruct IH as [IH|IH]; [left; now apply Exists_cons_tl|].
      right. now constructor. }
  destruct D as [D|D]; [left|right]; (split; [exact D|]).
  - now apply parse_lines_some_short.
  - now apply parse_lines_all_long.
Qed.

(** X7. For every response text and every list of relations found so far,
    parsing either raises [IndexError] (some parsed line has fewer than
    three fields) or returns the relations found so far, unchanged and in
    front, followed by one relation per parsed line in line order. *)
Theorem parse_response_keeps_earlier_relations
        (datas : string) (rel : list Relation) :
  let lines := PyStr.drop_header_footer (PyStr.split_on "010" datas) in
  (parse_response datas rel = Raise IndexError
   /\ Exists (fun l => List.length (PyStr.findall_nonspace l) < 3) lines)
  \/ (parse_response datas rel = Return (rel ++ map relation_of lines)%list
      /\ Forall (fun l => 3 <= List.length (PyStr.findall_nonspace l)) lines).
Proof.
  intros lines. unfold parse_response. fold lines.
  destruct (parse_lines_cases lines rel) as [[D E]|[D E]]; [left|right];
    split; assumption.
Qed.

(** ** What the save loop returns and raises *)

Lemma check_output_Return (output : string) (commands : cmdarg)
      (x : option string) :
  _check_output output commands = Return x -> ~ has_marker output.
Proof.
  destruct output as [|a s].
  - intros _ [H|[H|[H|H]]]; revert H; apply occurs_empty; discriminate.
  - change (_check_output (String a s) commands)
      with (check_patterns ERROR_MSG_PATTERNS (String a s) commands).
    destruct (check_patterns_spec (String a s) commands) as [[_ Hr]|[Hn _]];
      [congruence | auto].
Qed.

(** X8. An output that [save_configuration] returns is an answer of the
    switch to a save, holds none of the error markers, and the save that
    produced it is the last event of the trace. *)
Theorem saved_output_is_clean
        (dev : device) (fuel : nat) (t t' : trace) (output : string) :
  save_configuration dev fuel t = Some (Return output, t') ->
  ~ has_marker output
  /\ exists h d,
      dev_save_config dev h = (d, Return output)
      /\ t' = (h ++ [EvSaveConfig "save"])%list.
Proof.
  intros H. apply retrying_Return in H. destruct H as [h [d H]].
  unfold _save in H.
  destruct (dev_save_config dev h) as [d' r] eqn:Hd.
  destruct r as [o|e]; [|discriminate].
  destruct (_check_output o (OneCmd "save")) as [x|e] eqn:Hc; [|discriminate].
  inversion H; subst. split.
  - eapply check_output_Return. exact Hc.
  - exists h, d. split; [exact Hd | reflexivity].
Qed.

Lemma saved_output_is_clean_witness :
  ~ has_marker "Info: Save the configuration successfully."
  /\ exists h d,
      dev_save_config table_switch h
      = (d, Return "Info: Save the configuration successfully.")
      /\ [EvSaveConfig "save"] = (h ++ [EvSaveConfig "save"])%list.
Proof.
  apply (saved_output_is_clean table_switch 16 [] [EvSaveConfig "save"]).
  reflexivity.
Defined.

Section SaveRaises.

Context {A : Type}.
Variable pol : policy.
Variable attempt : trace -> nat * outcome A * trace.
Hypothesis retry_all : retry_on pol = is_Exception.
Hypothesis no_reraise : reraise pol = false.

Lemma retrying_wraps (fuel elapsed k : nat) (t t' : trace) (e : exn) :
  retrying pol attempt fuel elapsed k t = Some (Raise e, t') ->
  (exists e0, e = RetryError e0 /\ is_Exception e0 = true)
  \/ is_Exception e = false.
Proof.
  revert elapsed k t. induction fuel as [|fuel IH]; intros elapsed k t;
    simpl; [discriminate|].
  destruct (attempt t) as [[d r] t1]. destruct r as [a|e0]; [discriminate|].
  rewrite retry_all, no_reraise.
  destruct (is_Exception e0) eqn:He0.
  - destruct (max_delay pol <=? elapsed + d)%nat.
    + intros H. inversion H; subst. left. eauto.
    + apply IH.
  - intros H. inversion H; subst. now right.
Qed.

End SaveRaises.

(** X9. [save_configuration] lets no exception of class [Exception]
    through as it is: what it raises is [tenacity.RetryError] around such
    an exception (the device's, or [ConfigSwitchError]), or an exception
    outside of [Exception]. *)
Theorem save_configuration_raises_retry_error
        (dev : device) (fuel : nat) (t t' : trace) (e : exn) :
  save_configuration dev fuel t = Some (Raise e, t') ->
  (exists e0, e = RetryError e0 /\ is_Exception e0 = true)
  \/ is_Exception e = false.
Proof.
  apply (retrying_wraps (save_policy dev) (_save dev "save"));
    reflexivity.
Qed.

Lemma save_configuration_raises_retry_error_witness :
  (exists e0, RetryError (ConfigSwitchError (OneCmd "save")
                            "Error: The system is busy.")
              = RetryError e0 /\ is_Exception e0 = true)
  \/ is_Exception (RetryError (ConfigSwitchError (OneCmd "save")
                                 "Error: The system is busy.")) = false.
Proof.
  apply (save_configuration_raises_retry_error busy_switch 16 []
           [EvSaveConfig "save"; EvSleep 5; EvSaveConfig "save"; EvSleep 5;
            EvSaveConfig "save"; EvSleep 5; EvSaveConfig "save"; EvSleep 5;
            EvSaveConfig "save"; EvSleep 5; EvSaveConfig "save"]).
  reflexivity.
Defined.

(** ** What a single command raises *)

(** ** More on connecting *)

(** X11. An exception of [netmiko.ConnectHandler] that is none of the
    retried types ends the connect loop at the first attempt: there is no
    wait and no second attempt, the body is not run, and
    [_get_connection] raises [SwitchConnectionError] with the address and
    that exception after two error messages. *)
Theorem connect_error_not_retried
        (dev : device) (fuel : nat) (A : Type) (body : M A) (t : trace)
        (d : nat) (e : exn) :
  1 <= fuel ->
  dev_connect dev t = (d, Raise e) ->
  retry_exc_types e = false -> is_Exception e = true ->
  is_RetryError e = false ->
  _get_connection dev fuel body t
  = Some (Raise (SwitchConnectionError (dev_ip dev) e),
          (t ++ [EvConnect;
                 EvLog ERROR
                   (Msg "Unexpected exception during SSH connection");
                 EvLog ERROR (Traceback e)])%list).
Proof.
  intros Hf Hc Hr He Hn. destruct fuel as [|fuel]; [lia|].
  unfold _get_connection, bind, try_except, _create_connection.
  cbn [retrying]. rewrite Hc. cbn. rewrite Hr, He, Hn.
  cbn. now rewrite <- !app_assoc.
Qed.

Lemma connect_error_not_retried_witness :
  _get_connection refusing_switch 7 (ret tt) []
  = Some (Raise (SwitchConnectionError "10.0.0.1"
                   (OtherException "ConnectionRefused")),
          [EvConnect;
           EvLog ERROR (Msg "Unexpected exception during SSH connection");
           EvLog ERROR (Traceback (OtherException "ConnectionRefused"))]).
Proof.
  apply (connect_error_not_retried refusing_switch 7 unit (ret tt) [] 3
           (OtherException "ConnectionRefused"));
    try reflexivity. lia.
Defined.

Lemma elapsed_after_shift (d : nat -> nat) (i n : nat) :
  elapsed_after d (S i) n = elapsed_after (fun x => d (S x)) i n.
Proof.
  revert i. induction n as [|n IH]; intros i; simpl; [reflexivity|].
  now rewrite IH.
Qed.

Lemma connect_after_failures (dev : device) (n : nat) :
  forall (fuel elapsed k : nat) (t : trace) (d : nat -> nat)
         (es : nat -> exn),
    n < fuel ->
    (forall i, i < n ->
       dev_connect dev (after_failed_attempts t k i) = (d i, Raise (es i))
       /\ retry_exc_types (es i) = true
       /\ elapsed + elapsed_after d 0 i + d i < sw_ssh_connect_timeout) ->
    dev_connect dev (after_failed_attempts t k n) = (d n, Return tt) ->
    retrying (connect_policy)
             (fun t => (dev_connect dev t, (t ++ [EvConnect])%list))
             fuel elapsed k t
    = Some (Return tt, (after_failed_attempts t k n ++ [EvConnect])%list).
Proof.
  induction n as [|n IH]; intros fuel elapsed k t d es Hf Hfail Hok;
    (destruct fuel as [|fuel]; [lia|]); cbn [retrying].
  - simpl in Hok. now rewrite Hok.
  - destruct (Hfail 0) as [H0 [Hr He]]; [lia|].
    simpl in H0, He. rewrite H0.
    cbn -[Nat.leb sw_ssh_connect_timeout sw_ssh_connect_interval].
    rewrite Hr.
    destruct (Nat.leb_spec sw_ssh_connect_timeout (elapsed + d 0))
      as [Hs|Hs]; [lia|].
    assert (Et : (((t ++ [EvConnect]) ++ [EvLog DEBUG (AfterAttempt k)])
                  ++ [EvSleep sw_ssh_connect_interval])%list
                 = (t ++ [EvConnect; EvLog DEBUG (AfterAttempt k);
                          EvSleep sw_ssh_connect_interval])%list)
      by (now rewrite <- !app_assoc).
    rewrite Et.
    rewrite (IH fuel _ (S k) _ (fun x => d (S x)) (fun x => es (S x)));
      [reflexivity | lia | | exact Hok].
    intros i Hi. destruct (Hfail (S i)) as [Hc [Hr' He']]; [lia|].
    split; [exact Hc|]. split; [exact Hr'|].
    simpl in He'. rewrite elapsed_after_shift in He'.
    unfold sw_ssh_connect_interval in *. lia.
Qed.

(** X12. If the first [n] calls of [netmiko.ConnectHandler] raise retried
    errors, each before 60 seconds have gone by, and the next call
    succeeds, then the connect loop returns the session after exactly
    [n] logged retries and [n] waits of 10 seconds: the trace is the one
    of [n] failed attempts followed by the successful one. *)
Theorem connect_succeeds_after_retries
        (dev : device) (fuel n : nat) (t : trace) (d : nat -> nat)
        (es : nat -> exn) :
  n < fuel ->
  (forall i, i < n ->
     dev_connect dev (after_failed_attempts t 1 i) = (d i, Raise (es i))
     /\ retry_exc_types (es i) = true
     /\ elapsed_after d 0 i + d i < sw_ssh_connect_timeout) ->
  dev_connect dev (after_failed_attempts t 1 n) = (d n, Return tt) ->
  _create_connection dev fuel t
  = Some (Return tt, (after_failed_attempts t 1 n ++ [EvConnect])%list).
Proof.
  intros Hf Hfail Hok. unfold _create_connection.
  apply (connect_after_failures dev n fuel 0 1 t d es Hf); [|exact Hok].
  intros i Hi. destruct (Hfail i Hi) as [H1 [H2 H3]]. auto.
Qed.

Lemma connect_succeeds_after_retries_witness :
  _create_connection flaky_switch 7 []
  = Some (Return tt,
          [EvConnect; EvLog DEBUG (AfterAttempt 1); EvSleep 10;
           EvConnect; EvLog DEBUG (AfterAttempt 2); EvSleep 10;
           EvConnect; EvLog DEBUG (AfterAttempt 3); EvSleep 10;
           EvConnect]).
Proof.
  apply (connect_succeeds_after_retries flaky_switch 7 3 []
           (fun _ => 2) (fun _ => EOFError)).
  - lia.
  - intros i Hi.
    destruct i as [|[|[|i]]]; [| | |lia];
      (split; [reflexivity | split; [reflexivity | vm_compute; lia]]).
  - reflexivity.
Defined.

(** ** How often the loops try *)

Lemma count_event_app (p : event -> bool) (a b : list event) :
  count_event p (a ++ b) = count_event p a + count_event p b.
Proof. unfold count_event. now rewrite filter_app, length_app. Qed.

Section AttemptBound.

Context {A : Type}.
Variable pol : policy.
Variable attempt : trace -> nat * outcome A * trace.
Variable p : event -> bool.
Variable w : nat.
Hypothesis attempt_one :
  forall t, exists d r ev,
    attempt t = (d, r, (t ++ [ev])%list) /\ p ev = true.
Hypothesis p_log : forall l m, p (EvLog l m) = false.
Hypothesis p_sleep : forall s, p (EvSleep s) = false.
Hypothesis wait_min : forall t, w <= wait pol t.

(** Each attempt adds one event that [p] counts; with waits of [w]
    seconds or more, a loop that has run for [elapsed] seconds adds at
    most [1 + (max_delay + w - 1 - elapsed) / w] of them. *)
Lemma retrying_attempts (fuel elapsed k : nat) (t t' : trace)
      (r : outcome A) :
  retrying pol attempt fuel elapsed k t = Some (r, t') ->
  exists new,
    t' = (t ++ new)%list
    /\ 1 <= count_event p new
    /\ w * count_event p new <= w + (max_delay pol + w - 1 - elapsed).
Proof.
  revert elapsed k t. induction fuel as [|fuel IH]; intros elapsed k t;
    simpl; [discriminate|].
  destruct (attempt_one t) as [d [r0 [ev [E Hp]]]]. rewrite E.
  assert (C1 : count_event p [ev] = 1)
    by (unfold count_event; simpl; now rewrite Hp).
  assert (Base : forall x, w * 1 <= w + x) by (intros; lia).
  destruct r0 as [a|e].
  - intros H. inversion H; subst. exists [ev]. rewrite C1. auto.
  - destruct (retry_on pol e).
    + destruct (Nat.leb_spec (max_delay pol) (elapsed + d)) as [Hs|Hs].
      * intros H. inversion H; subst. clear H.
        destruct (log_after pol).
        -- exists [ev; EvLog DEBUG (AfterAttempt k)].
           rewrite <- app_assoc. split; [reflexivity|].
           change [ev; EvLog DEBUG (AfterAttempt k)]
             with ([ev] ++ [EvLog DEBUG (AfterAttempt k)])%list.
           rewrite count_event_app, C1.
           replace (count_event p [EvLog DEBUG (AfterAttempt k)]) with 0
             by (unfold count_event; simpl; now rewrite p_log).
           simpl Nat.add. auto.
        -- exists [ev]. rewrite C1. auto.
      * intros H. apply IH in H. destruct H as [new [-> [Hc Hb]]].
        match type of Hb with
        | context [wait pol ?x] => pose proof (wait_min x) as Hw
        end.
        destruct (log_after pol).
        -- exists ([ev] ++ [EvLog DEBUG (AfterAttempt k)]
                   ++ [EvSleep (wait pol ((t ++ [ev])
                                          ++ [EvLog DEBUG (AfterAttempt k)]))]
                   ++ new)%list.
           split; [now rewrite <- !app_assoc|].
           rewrite !count_event_app, C1.
           replace (count_event p [EvLog DEBUG (AfterAttempt k)]) with 0
             by (unfold count_event; simpl; now rewrite p_log).
           match goal with
           | |- context [count_event p [EvSleep ?x]] =>
               replace (count_event p [EvSleep x]) with 0
                 by (unfold count_event; simpl; now rewrite p_sleep)
           end.
           simpl Nat.add. rewrite Nat.mul_succ_r. lia.
        -- exists ([ev] ++ [EvSleep (wait pol (t ++ [ev]))] ++ new)%list.
           split; [now rewrite <- !app_assoc|].
           rewrite !count_event_app, C1.
           match goal with
           | |- context [count_event p [EvSleep ?x]] =>
               replace (count_event p [EvSleep x]) with 0
                 by (unfold count_event; simpl; now rewrite p_sleep)
           end.
           simpl Nat.add. rewrite Nat.mul_succ_r. lia.
    + intros H. inversion H; subst. exists [ev]. rewrite C1. auto.
Qed.

End AttemptBound.

(** X13. Whatever the switch does and however much fuel there is, the
    connect loop calls [netmiko.ConnectHandler] at least once and at most
    7 times, and the save loop sends the save at least once and at most
    16 times; both only add events to the trace. *)
Theorem retry_loops_are_bounded
        (dev : device) (fuel : nat) (t : trace) :
  (forall r t', _create_connection dev fuel t = Some (r, t') ->
     exists new, t' = (t ++ new)%list
                 /\ 1 <= count_event is_connect new <= 7)
  /\ (forall r t', save_configuration dev fuel t = Some (r, t') ->
        exists new, t' = (t ++ new)%list
                    /\ 1 <= count_event is_save new <= 16).
Proof.
  split; intros r t' H.
  - apply (retrying_attempts (connect_policy) _ is_connect 10) in H.
    + destruct H as [new [-> [H1 H2]]]. exists new.
      split; [reflexivity|]. simpl in H2.
      unfold sw_ssh_connect_timeout in H2. lia.
    + intros h. destruct (dev_connect dev h) as [d r0].
      exists d, r0, EvConnect. auto.
    + reflexivity.
    + reflexivity.
    + intros; simpl; unfold sw_ssh_connect_interval; lia.
  - apply (retrying_attempts (save_policy dev) _ is_save 2) in H.
    + destruct H as [new [-> [H1 H2]]]. exists new.
      split; [reflexivity|]. simpl in H2. lia.
    + intros h. unfold _save.
      destruct (dev_save_config dev h) as [d r0].
      destruct r0 as [o|e]; [|exists d, (Raise e), (EvSaveConfig "save"); auto].
      destruct (_check_output o (OneCmd "save")) as [x|e];
        [exists d, (Return o), (EvSaveConfig "save")
        |exists d, (Raise e), (EvSaveConfig "save")]; auto.
    + reflexivity.
    + reflexivity.
    + intros; simpl; lia.
Qed.

(** ** The session discipline *)

Section Discipline.

Variable dev : device.
Variable io_ok : event -> bool.

Lemma run_app (h : trace) (s : phase) (a b : list event) :
  run dev io_ok h s (a ++ b)
  = match run dev io_ok h s a with
    | Some s1 => run dev io_ok (h ++ a)%list s1 b
    | None => None
    end.
Proof.
  revert h s. induction a as [|ev a IH]; intros h s; simpl.
  - now rewrite app_nil_r.
  - destruct (step dev io_ok h s ev) as [s1|]; [|reflexivity].
    rewrite IH. now rewrite <- app_assoc.
Qed.

Lemma runs_weaken {A : Type} (s : phase) (m : M A)
      (Q1 Q2 : outcome A -> phase -> Prop) :
  runs dev io_ok s m Q1 -> (forall r s1, Q1 r s1 -> Q2 r s1) ->
  runs dev io_ok s m Q2.
Proof.
  intros Hm HQ t. destruct (Hm t) as [r [new [s1 [E [R Q]]]]].
  exists r, new, s1. auto.
Qed.

Lemma runs_ret {A : Type} (s : phase) (a : A) :
  runs dev io_ok s (ret a) (fun r s1 => r = Return a /\ s1 = s).
Proof.
  intros t. exists (Return a), [], s. rewrite app_nil_r. auto.
Qed.

Lemma runs_raise {A : Type} (s : phase) (e : exn) :
  runs dev io_ok s (raise (A := A) e) (fun r s1 => r = Raise e /\ s1 = s).
Proof.
  intros t. exists (Raise e), [], s. rewrite app_nil_r. auto.
Qed.

Lemma runs_lift {A : Type} (s : phase) (x : outcome A) :
  runs dev io_ok s (lift x) (fun r s1 => s1 = s).
Proof.
  intros t. exists x, [], s. rewrite app_nil_r. auto.
Qed.

Lemma runs_log (s : phase) (l : level) (m : logmsg) :
  runs dev io_ok s (log l m) (fun r s1 => r = Return tt /\ s1 = s).
Proof.
  intros t. exists (Return tt), [EvLog l m], s.
  split; [reflexivity|]. split; [|auto]. now destruct s.
Qed.

Lemma runs_call {A : Type} (s s' : phase) (ev : event)
      (f : trace -> outcome A) :
  (forall h, step dev io_ok h s ev = Some s') ->
  runs dev io_ok s (call ev f) (fun r s1 => s1 = s').
Proof.
  intros Hstep t. exists (f t), [ev], s'.
  split; [reflexivity|]. split; [|reflexivity].
  simpl. now rewrite Hstep.
Qed.

Lemma runs_bind {A B : Type} (s : phase) (m : M A) (k : A -> M B)
      (Q1 : outcome A -> phase -> Prop) (Q2 : outcome B -> phase -> Prop) :
  runs dev io_ok s m Q1 ->
  (forall a s1, Q1 (Return a) s1 -> runs dev io_ok s1 (k a) Q2) ->
  (forall e s1, Q1 (Raise e) s1 -> Q2 (Raise e) s1) ->
  runs dev io_ok s (bind m k) Q2.
Proof.
  intros Hm Hk He t. destruct (Hm t) as [r [new [s1 [E [R Q]]]]].
  unfold bind. rewrite E. destruct r as [a|e].
  - destruct (Hk a s1 Q (t ++ new)%list) as [r2 [new2 [s2 [E2 [R2 Q2']]]]].
    exists r2, (new ++ new2)%list, s2. rewrite E2, app_assoc.
    split; [reflexivity|]. split; [|exact Q2'].
    now rewrite run_app, R.
  - exists (Raise e), new, s1. auto.
Qed.

Lemma runs_try_except {A : Type} (s : phase) (m : M A)
      (caught : exn -> bool) (handler : exn -> M A)
      (Q1 Q2 : outcome A -> phase -> Prop) :
  runs dev io_ok s m Q1 ->
  (forall a s1, Q1 (Return a) s1 -> Q2 (Return a) s1) ->
  (forall e s1, Q1 (Raise e) s1 -> caught e = false -> Q2 (Raise e) s1) ->
  (forall e s1, Q1 (Raise e) s1 -> caught e = true ->
                runs dev io_ok s1 (handler e) Q2) ->
  runs dev io_ok s (try_except m caught handler) Q2.
Proof.
  intros Hm Hr Hn Hh t. destruct (Hm t) as [r [new [s1 [E [R Q]]]]].
  unfold try_except. rewrite E. destruct r as [a|e].
  - exists (Return a), new, s1. auto.
  - destruct (caught e) eqn:Hc.
    + destruct (Hh e s1 Q Hc (t ++ new)%list)
        as [r2 [new2 [s2 [E2 [R2 Q2']]]]].
      exists r2, (new ++ new2)%list, s2. rewrite E2, app_assoc.
      split; [reflexivity|]. split; [|exact Q2'].
      now rewrite run_app, R.
    + exists (Raise e), new, s1. auto.
Qed.

Lemma runs_finally {A : Type} (s : phase) (m : M A) (ev : event)
      (Q1 Q2 : outcome A -> phase -> Prop) :
  runs dev io_ok s m Q1 ->
  (forall r s1, Q1 r s1 ->
     exists s2, (forall h, step dev io_ok h s1 ev = Some s2) /\ Q2 r s2) ->
  runs dev io_ok s (finally m (emit ev)) Q2.
Proof.
  intros Hm Hs t. destruct (Hm t) as [r [new [s1 [E [R Q]]]]].
  destruct (Hs r s1 Q) as [s2 [Hstep Q2']].
  unfold finally, emit. rewrite E.
  exists r, (new ++ [ev])%list, s2. rewrite app_assoc.
  split; [reflexivity|]. split; [|exact Q2'].
  rewrite run_app, R. simpl. now rewrite Hstep.
Qed.

(** Under the lock: the slot is given back from the phases in which no
    session is open. *)
Lemma runs_PoolLock {A : Type} (body : M A)
      (Q1 : outcome A -> phase -> Prop) :
  runs dev io_ok Locked body Q1 ->
  (forall r s1, Q1 r s1 -> s1 = Locked \/ s1 = Closed) ->
  runs dev io_ok Idle (PoolLock dev body) (fun _ s1 => s1 = Idle).
Proof.
  intros Hb HQ t. unfold PoolLock.
  destruct (dev_acquire dev t) as [u|e].
  - destruct (Hb (t ++ [EvAcquire])%list) as [r [new [s1 [E [R Q]]]]].
    unfold finally, emit. rewrite E.
    exists r, ([EvAcquire] ++ new ++ [EvRelease])%list, Idle.
    split; [now rewrite <- !app_assoc|]. split; [|reflexivity].
    simpl. rewrite run_app, R.
    destruct (HQ r s1 Q) as [->| ->]; reflexivity.
  - exists (Raise e), [], Idle. rewrite app_nil_r. auto.
Qed.

(** The connect loop, started under the lock: a session exactly when it
    returns. *)
Lemma runs_connect_loop (fuel elapsed k : nat) :
  1 <= fuel -> sw_ssh_connect_timeout
               <= elapsed + (fuel - 1) * sw_ssh_connect_interval ->
  runs dev io_ok Locked
       (retrying (connect_policy)
                 (fun t => (dev_connect dev t, (t ++ [EvConnect])%list))
                 fuel elapsed k)
       (fun r s1 => s1 = if is_Return r then InSession else Locked).
Proof.
  unfold sw_ssh_connect_timeout, sw_ssh_connect_interval.
  revert elapsed k. induction fuel as [|fuel IH]; intros elapsed k Hf Hd t;
    [lia|].
  cbn [retrying].
  destruct (dev_connect dev t) as [d r] eqn:Hc.
  assert (S1 : step dev io_ok t Locked EvConnect
               = Some (if is_Return r then InSession else Locked))
    by (simpl; rewrite Hc; simpl; now destruct (is_Return r)).
  destruct r as [u|e].
  - exists (Return u), [EvConnect], InSession.
    split; [reflexivity|]. split; [|reflexivity].
    simpl. rewrite Hc. reflexivity.
  - cbn -[Nat.leb]. cbn [is_Return] in S1.
    unfold sw_ssh_connect_timeout, sw_ssh_connect_interval.
    destruct (retry_exc_types e).
    + destruct (Nat.leb_spec 60 (elapsed + d)) as [Hs|Hs].
      * exists (Raise e), [EvConnect; EvLog DEBUG (AfterAttempt k)], Locked.
        split; [now rewrite <- app_assoc|]. split; [|reflexivity].
        cbn [run]. rewrite S1. reflexivity.
      * destruct (IH (elapsed + d + 10) (S k)) with
          (t := (((t ++ [EvConnect]) ++ [EvLog DEBUG (AfterAttempt k)])
                 ++ [EvSleep 10])%list)
          as [r2 [new2 [s2 [E2 [R2 Q2]]]]].
        -- destruct fuel; simpl in Hd; lia.
        -- replace (S fuel - 1) with fuel in Hd by lia.
           destruct fuel; [lia|]. simpl. lia.
        -- rewrite E2.
           exists r2, ([EvConnect; EvLog DEBUG (AfterAttempt k); EvSleep 10]
                       ++ new2)%list, s2.
           split; [now rewrite <- !app_assoc|]. split; [|exact Q2].
           rewrite run_app. cbn [run]. rewrite S1. cbn [step run].
           rewrite <- R2. f_equal. now rewrite <- !app_assoc.
    + exists (Raise e), [EvConnect], Locked.
      split; [reflexivity|]. split; [|reflexivity].
      cbn [run]. rewrite S1. reflexivity.
Qed.

(** The save loop, run in a session that may save: it stays in the
    session. *)
Lemma runs_save_loop (fuel elapsed k : nat) :
  io_ok (EvSaveConfig "save") = true ->
  1 <= fuel -> 30 <= elapsed + (fuel - 1) * 2 ->
  runs dev io_ok InSession
       (retrying (save_policy dev) (_save dev "save") fuel elapsed k)
       (fun _ s1 => s1 = InSession).
Proof.
  intros Hio.
  revert elapsed k. induction fuel as [|fuel IH]; intros elapsed k Hf Hd t;
    [lia|].
  cbn [retrying].
  assert (E : exists d r, _save dev "save" t
                          = (d, r, (t ++ [EvSaveConfig "save"])%list)).
  { unfold _save. destruct (dev_save_config dev t) as [d r].
    destruct r as [o|e]; [|eauto].
    destruct (_check_output o (OneCmd "save")); eauto. }
  destruct E as [d [r E]]. rewrite E.
  assert (S1 : forall h, step dev io_ok h InSession (EvSaveConfig "save")
                         = Some InSession)
    by (intros h; simpl; now rewrite Hio).
  destruct r as [o|e].
  - exists (Return o), [EvSaveConfig "save"], InSession.
    split; [reflexivity|]. split; [|reflexivity].
    cbn [run]. now rewrite S1.
  - cbn -[Nat.leb Nat.modulo Nat.add].
    destruct (is_Exception e).
    + destruct (Nat.leb_spec 30 (elapsed + d)) as [Hs|Hs].
      * exists (Raise (RetryError e)), [EvSaveConfig "save"], InSession.
        split; [reflexivity|]. split; [|reflexivity].
        cbn [run]. now rewrite S1.
      * set (w := 2 + dev_random dev (t ++ [EvSaveConfig "save"])%list mod 5).
        destruct (IH (elapsed + d + w) (S k)) with
          (t := ((t ++ [EvSaveConfig "save"]) ++ [EvSleep w])%list)
          as [r2 [new2 [s2 [E2 [R2 Q2]]]]].
        -- destruct fuel; simpl in Hd; lia.
        -- replace (S fuel - 1) with fuel in Hd by lia.
           subst w. destruct fuel; [lia|]. simpl. lia.
        -- rewrite E2.
           exists r2, ([EvSaveConfig "save"; EvSleep w] ++ new2)%list, s2.
           split; [now rewrite <- !app_assoc|]. split; [|exact Q2].
           rewrite run_app. cbn [run]. rewrite S1. cbn [step run].
           rewrite <- R2. f_equal. now rewrite <- !app_assoc.
    + exists (Raise e), [EvSaveConfig "save"], InSession.
      split; [reflexivity|]. split; [|reflexivity].
      cbn [run]. now rewrite S1.
Qed.

(** [_get_connection]: from the lock to the lock without session (the
    connection failed) or to the closed session (the body ran). *)
Lemma runs_get_connection {A : Type} (fuel : nat) (body : M A) :
  7 <= fuel ->
  runs dev io_ok InSession body (fun _ s1 => s1 = InSession) ->
  runs dev io_ok Locked (_get_connection dev fuel body)
       (fun _ s1 => s1 = Locked \/ s1 = Closed).
Proof.
  intros Hf Hb. unfold _get_connection.
  eapply runs_bind with
    (Q1 := fun r s1 => s1 = if is_Return r then InSession else Locked).
  - eapply runs_try_except.
    + apply runs_connect_loop; [lia|].
      unfold sw_ssh_connect_timeout, sw_ssh_connect_interval. lia.
    + intros a s1 H. exact H.
    + intros e s1 H _. exact H.
    + intros e s1 H _. simpl in H. subst s1.
      eapply runs_bind.
      * destruct (is_RetryError e).
        -- eapply runs_weaken; [apply runs_log|].
           intros r s1 [_ H]. exact H.
        -- eapply runs_bind; [apply runs_log| |].
           ++ intros a s1 [_ ->].
              eapply runs_weaken; [apply runs_log|].
              intros r s1 [_ H]. exact H.
           ++ intros e0 s1 [H _]. discriminate H.
      * intros a s1 ->. eapply runs_weaken; [apply runs_raise|].
        intros r s1 [-> ->]. reflexivity.
      * intros e0 s1 ->. reflexivity.
  - intros a s1 H. simpl in H. subst s1.
    eapply runs_finally; [exact Hb|].
    intros r s1 ->. exists Closed. split; [reflexivity | now right].
  - intros e s1 H. simpl in H. now left.
Qed.

End Discipline.

Section SamePhase.

Variable dev : device.
Variable io_ok : event -> bool.
Variable s : phase.

Lemma stays_ret {A : Type} (a : A) : stays dev io_ok s (ret a).
Proof.
  eapply runs_weaken; [apply runs_ret|]. intros r s1 [_ H]. exact H.
Qed.

Lemma stays_raise {A : Type} (e : exn) : stays dev io_ok s (raise (A := A) e).
Proof.
  eapply runs_weaken; [apply runs_raise|]. intros r s1 [_ H]. exact H.
Qed.

Lemma stays_lift {A : Type} (x : outcome A) : stays dev io_ok s (lift x).
Proof. apply runs_lift. Qed.

Lemma stays_log (l : level) (m : logmsg) : stays dev io_ok s (log l m).
Proof.
  eapply runs_weaken; [apply runs_log|]. intros r s1 [_ H]. exact H.
Qed.

Lemma stays_bind {A B : Type} (m : M A) (k : A -> M B) :
  stays dev io_ok s m -> (forall a, stays dev io_ok s (k a)) -> stays dev io_ok s (bind m k).
Proof.
  intros Hm Hk. eapply runs_bind; [exact Hm| |].
  - intros a s1 ->. apply Hk.
  - intros e s1 H. exact H.
Qed.

Lemma stays_try_except {A : Type} (m : M A) (caught : exn -> bool)
      (handler : exn -> M A) :
  stays dev io_ok s m -> (forall e, stays dev io_ok s (handler e)) ->
  stays dev io_ok s (try_except m caught handler).
Proof.
  intros Hm Hh. eapply runs_try_except; [exact Hm| | |].
  - intros a s1 H. exact H.
  - intros e s1 H _. exact H.
  - intros e s1 -> _. apply Hh.
Qed.

End SamePhase.

Lemma send_config_set_in_session (dev : device) (cmd_set : list string) :
  stays dev batch_io InSession (send_config_set dev cmd_set).
Proof.
  unfold send_config_set. apply stays_try_except.
  - apply stays_bind; [now apply runs_call|]. intros _.
    apply stays_bind; [now apply runs_call|]. intros output.
    apply stays_bind; [apply stays_lift|]. intros _. apply stays_log.
  - intros e. apply stays_bind; [apply stays_log|]. intros _.
    apply stays_raise.
Qed.

Lemma send_command_in_session (dev : device) (command : string) :
  stays dev command_io InSession (send_command dev command)
  /\ (prefix "dis" command = true ->
      stays dev display_io InSession (send_command dev command)).
Proof.
  split; [|intros Hd]; unfold send_command; [|rewrite Hd];
    (apply stays_try_except;
     [ apply stays_bind;
       [ try destruct (prefix "dis" command); now apply runs_call |];
       intros _;
       apply stays_bind; [now apply runs_call|]; intros output;
       apply stays_bind; [apply stays_lift|]; intros _; apply stays_log
     | intros e; apply stays_bind; [apply stays_log|]; intros _;
       apply stays_raise ]).
Qed.

Lemma locked_session (dev : device) (io_ok : event -> bool) (fuel : nat)
      (A : Type) (body : M A) :
  7 <= fuel -> stays dev io_ok InSession body ->
  stays dev io_ok Idle (PoolLock dev (_get_connection dev fuel body)).
Proof.
  intros Hf Hb. eapply runs_PoolLock.
  - apply runs_get_connection; [exact Hf | exact Hb].
  - intros r s1 H. exact H.
Qed.

(** X14. For every switch, batch and history (7 attempts of fuel are
    enough), [my_send_config_set] ends, only adds events to the trace,
    and keeps the session discipline: nothing is exchanged with the
    switch without a lock slot and an open session, the only exchanges
    are [config_mode] and the batch (never a save), the session is
    closed before the slot is given back, and the slot is given back on
    every path, normal or exceptional. *)
Theorem batch_session_discipline
        (dev : device) (fuel : nat) (cmd_set : list string) (t : trace) :
  7 <= fuel ->
  exists r new,
    my_send_config_set dev fuel cmd_set t = Some (r, (t ++ new)%list)
    /\ run dev batch_io t Idle new = Some Idle.
Proof.
  intros Hf.
  assert (H : stays dev batch_io Idle (my_send_config_set dev fuel cmd_set)).
  { unfold my_send_config_set. destruct cmd_set as [|c cs].
    - apply stays_bind; [apply stays_log|]. intros _. apply stays_ret.
    - apply stays_try_except.
      + apply stays_bind.
        * apply locked_session; [exact Hf|].
          apply send_config_set_in_session.
        * intros _. apply stays_ret.
      + intros e. apply stays_bind; [apply stays_log|]. intros _.
        apply stays_raise. }
  destruct (H t) as [r [new [s1 [E [R ->]]]]]. eauto.
Qed.

Lemma batch_session_discipline_witness :
  exists r new,
    my_send_config_set flaky_switch 7 ["interface GE1/0/1"; "shutdown"] []
    = Some (r, ([] ++ new)%list)
    /\ run flaky_switch batch_io [] Idle new = Some Idle.
Proof.
  apply (batch_session_discipline flaky_switch 7
           ["interface GE1/0/1"; "shutdown"] []).
  lia.
Defined.

(** X15. For every switch, command and history (16 attempts of fuel are
    enough), [my_send_command] ends and keeps the session discipline:
    lock slot, then session, then the exchanges, then the session closed,
    then the slot given back, on every path.  A command that starts with
    [dis] never puts the switch into configuration mode. *)
Theorem single_command_session_discipline
        (dev : device) (fuel : nat) (command : string) (t : trace) :
  16 <= fuel ->
  (exists r new,
      my_send_command dev fuel command t = Some (r, (t ++ new)%list)
      /\ run dev command_io t Idle new = Some Idle)
  /\ (prefix "dis" command = true ->
      exists r new,
        my_send_command dev fuel command t = Some (r, (t ++ new)%list)
        /\ run dev display_io t Idle new = Some Idle).
Proof.
  intros Hf.
  assert (G : forall io_ok,
             io_ok (EvSaveConfig "save") = true ->
             stays dev io_ok InSession (send_command dev command) ->
             stays dev io_ok Idle (my_send_command dev fuel command)).
  { intros io_ok Hio Hs. unfold my_send_command.
    destruct command as [|a c].
    - apply stays_bind; [apply stays_log|]. intros _. apply stays_ret.
    - apply stays_try_except.
      + apply locked_session; [lia|].
        apply stays_bind; [exact Hs|]. intros _.
        apply stays_bind.
        * apply runs_save_loop; [exact Hio | lia | lia].
        * intros o. apply stays_ret.
      + intros e. apply stays_bind; [apply stays_log|]. intros _.
        apply stays_raise. }
  destruct (send_command_in_session dev command) as [H1 H2].
  split.
  - destruct (G command_io eq_refl H1 t) as [r [new [s1 [E [R ->]]]]]. eauto.
  - intros Hd.
    destruct (G display_io eq_refl (H2 Hd) t) as [r [new [s1 [E [R ->]]]]].
    eauto.
Qed.

Lemma single_command_session_discipline_witness :
  (exists r new,
      my_send_command busy_switch 16 "display mac-address" []
      = Some (r, ([] ++ new)%list)
      /\ run busy_switch command_io [] Idle new = Some Idle)
  /\ (prefix "dis" "display mac-address" = true ->
      exists r new,
        my_send_command busy_switch 16 "display mac-address" []
        = Some (r, ([] ++ new)%list)
        /\ run busy_switch display_io [] Idle new = Some Idle).
Proof.
  apply (single_command_session_discipline busy_switch 16
           "display mac-address" []).
  lia.
Defined.

(** X16. For every switch and history (16 attempts of fuel are enough),
    [save] ends and keeps the session discipline, and the only exchange
    with the switch is the save: also when the retries are exhausted and
    [save] raises, the session is closed and then the slot given back. *)
Theorem save_session_discipline (dev : device) (fuel : nat) (t : trace) :
  16 <= fuel ->
  exists r new,
    save dev fuel t = Some (r, (t ++ new)%list)
    /\ run dev save_io t Idle new = Some Idle.
Proof.
  intros Hf.
  assert (H : stays dev save_io Idle (save dev fuel)).
  { unfold save. apply locked_session; [lia|].
    apply stays_bind.
    - apply stays_try_except.
      + apply stays_bind.
        * apply runs_save_loop; [reflexivity | lia | lia].
        * intros o. apply stays_ret.
      + intros e. apply stays_bind; [apply stays_log|]. intros _.
        apply stays_ret.
    - intros [o|]; [apply stays_ret | apply stays_raise]. }
  destruct (H t) as [r [new [s1 [E [R ->]]]]]. eauto.
Qed.

Lemma save_session_discipline_witness :
  exists r new,
    save busy_switch 16 [] = Some (r, ([] ++ new)%list)
    /\ run busy_switch save_io [] Idle new = Some Idle.
Proof.
  apply (save_session_discipline busy_switch 16 []). lia.
Defined.

(** ** A batch, from the lock to the answer *)

Lemma check_output_cases (output : string) (commands : cmdarg) :
  (has_marker output
   /\ _check_output output commands
      = Raise (ConfigSwitchError commands output))
  \/ (~ has_marker output
      /\ exists x, _check_output output commands = Return x).
Proof.
  destruct output as [|a s].
  - right. split; [|now exists None].
    intros [H|[H|[H|H]]]; revert H; apply occurs_empty; discriminate.
  - change (_check_output (String a s) commands)
      with (check_patterns ERROR_MSG_PATTERNS (String a s) commands).
    destruct (check_patterns_spec (String a s) commands) as [[Hm Hr]|[Hn Hr]];
      [left | right]; eauto.
Qed.

(** X17. A batch on a switch that grants a slot, opens the session at the
    first attempt and accepts configuration mode: if the answer holds no
    error marker, [my_send_config_set] returns [successful]; if it holds
    one, it raises [ConfigSwitchError] with the whole batch and the
    answer, after logging the traceback twice.  Either way the batch is
    sent once, and the session is closed and the slot given back. *)
Theorem batch_result_follows_the_answer
        (dev : device) (fuel : nat) (cmd_set : list string) (t : trace)
        (d : nat) (output : string) :
  1 <= fuel -> cmd_set <> [] ->
  dev_acquire dev t = Return tt ->
  dev_connect dev (t ++ [EvAcquire])%list = (d, Return tt) ->
  dev_config_mode dev (t ++ [EvAcquire; EvConnect])%list = Return tt ->
  dev_send_config_set dev (t ++ [EvAcquire; EvConnect; EvConfigMode])%list
                      cmd_set = Return output ->
  (~ has_marker output ->
   my_send_config_set dev fuel cmd_set t
   = Some (Return (Some "successful"),
           (t ++ [EvAcquire; EvConnect; EvConfigMode;
                  EvSendConfigSet cmd_set;
                  EvLog DEBUG (Msg (String "010" "result:"
                                    ++ String "010" output));
                  EvDisconnect; EvRelease])%list))
  /\ (has_marker output ->
      my_send_config_set dev fuel cmd_set t
      = Some (Raise (ConfigSwitchError (CmdSet cmd_set) output),
              (t ++ [EvAcquire; EvConnect; EvConfigMode;
                     EvSendConfigSet cmd_set;
                     EvLog ERROR (Traceback (ConfigSwitchError
                                               (CmdSet cmd_set) output));
                     EvDisconnect; EvRelease;
                     EvLog ERROR (Traceback (ConfigSwitchError
                                               (CmdSet cmd_set) output))])
                %list)).
Proof.
  intros Hf Hne Ha Hc Hm Hs.
  destruct fuel as [|fuel]; [lia|].
  destruct cmd_set as [|c cs]; [congruence|].
  replace (t ++ [EvAcquire; EvConnect])%list
    with ((t ++ [EvAcquire]) ++ [EvConnect])%list in Hm
    by (now rewrite <- app_assoc).
  replace (t ++ [EvAcquire; EvConnect; EvConfigMode])%list
    with (((t ++ [EvAcquire]) ++ [EvConnect]) ++ [EvConfigMode])%list in Hs
    by (now rewrite <- !app_assoc).
  assert (E : forall r,
             _check_output output (CmdSet (c :: cs)) = r ->
             my_send_config_set dev (S fuel) (c :: cs) t
             = match r with
               | Return _ =>
                   Some (Return (Some "successful"),
                         (t ++ [EvAcquire; EvConnect; EvConfigMode;
                                EvSendConfigSet (c :: cs);
                                EvLog DEBUG (Msg (String "010" "result:"
                                                  ++ String "010" output));
                                EvDisconnect; EvRelease])%list)
               | Raise e =>
                   Some (Raise e,
                         (t ++ [EvAcquire; EvConnect; EvConfigMode;
                                EvSendConfigSet (c :: cs);
                                EvLog ERROR (Traceback e);
                                EvDisconnect; EvRelease;
                                EvLog ERROR (Traceback e)])%list)
               end).
  { intros r Hr.
    unfold my_send_config_set. cbv [try_except bind PoolLock].
    rewrite Ha.
    cbv [try_except bind finally _get_connection _create_connection
         send_config_set call lift].
    cbn [retrying]. rewrite Hc. cbv beta iota. rewrite Hm.
    cbv beta iota. rewrite Hs. cbv beta iota. rewrite Hr.
    destruct r as [x|e].
    - cbn. now rewrite <- !app_assoc.
    - assert (He : is_Exception e = true).
      { destruct (check_output_cases output (CmdSet (c :: cs)))
          as [[_ H]|[_ [x H]]]; rewrite H in Hr; inversion Hr; reflexivity. }
      cbn. rewrite He. cbn. now rewrite <- !app_assoc. }
  split; intros H.
  - destruct (check_output_cases output (CmdSet (c :: cs)))
      as [[H' _]|[_ [x Hx]]]; [contradiction|].
    now rewrite (E _ Hx).
  - destruct (check_output_cases output (CmdSet (c :: cs)))
      as [[_ Hx]|[H' _]]; [|contradiction].
    now rewrite (E _ Hx).
Qed.

Lemma batch_result_follows_the_answer_witness :
  my_send_config_set strict_switch 7 ["interfac GE1/0/1"; "q"] []
  = Some (Raise (ConfigSwitchError (CmdSet ["interfac GE1/0/1"; "q"])
                   "Error: Unrecognized command found at '^' position."),
          [EvAcquire; EvConnect; EvConfigMode;
           EvSendConfigSet ["interfac GE1/0/1"; "q"];
           EvLog ERROR
             (Traceback (ConfigSwitchError
                           (CmdSet ["interfac GE1/0/1"; "q"])
                           "Error: Unrecognized command found at '^' position."));
           EvDisconnect; EvRelease;
           EvLog ERROR
             (Traceback (ConfigSwitchError
                           (CmdSet ["interfac GE1/0/1"; "q"])
                           "Error: Unrecognized command found at '^' position."))]).
Proof.
  refine (proj2 (batch_result_follows_the_answer strict_switch 7
                   ["interfac GE1/0/1"; "q"] [] 1
                   "Error: Unrecognized command found at '^' position."
                   _ _ eq_refl eq_refl eq_refl eq_refl) _).
  - lia.
  - discriminate.
  - left. apply search_occurs. reflexivity.
Defined.

(** ** How a relation query can fail *)

Lemma my_send_command_raises (dev : device) (fuel : nat) (command : string)
      (t t' : trace) (e : exn) :
  my_send_command dev fuel command t = Some (Raise e, t') ->
  e = RuntimeError "No active exception to reraise"
  \/ is_Exception e = false.
Proof.
  destruct command as [|a s]; [discriminate|].
  unfold my_send_command, try_except.
  destruct (PoolLock dev _ t) as [[[v|e0] t0]|]; try discriminate.
  destruct (is_Exception e0) eqn:He0.
  - unfold bind, log, emit, raise. intros H. inversion H; subst. now left.
  - intros H. inversion H; subst. now right.
Qed.

Lemma my_send_command_returns_text (dev : device) (fuel : nat)
      (a : ascii) (s : string) (t t' : trace) (v : option string) :
  my_send_command dev fuel (String a s) t = Some (Return v, t') ->
  exists output, v = Some output.
Proof.
  unfold my_send_command, try_except.
  destruct (PoolLock dev _ t) as [[[v0|e] t0]|] eqn:HP; try discriminate.
  - intros H. inversion H; subst v0 t0. clear H.
    unfold PoolLock in HP.
    destruct (dev_acquire dev t); [|discriminate].
    apply finally_emit in HP. destruct HP as [t1 [HG _]].
    unfold _get_connection in HG.
    apply bind_Return in HG. destruct HG as [u [t2 [_ HB]]].
    apply finally_emit in HB. destruct HB as [t3 [HB _]].
    apply bind_Return in HB. destruct HB as [u' [t4 [_ HS]]].
    apply bind_Return in HS. destruct HS as [o [t5 [_ HR]]].
    inversion HR; subst. eauto.
  - destruct (is_Exception e); discriminate.
Qed.

Lemma query_relations_raises (dev : device) (fuel : nat) (a : ascii)
      (s : string) (rel : list Relation) (t t' : trace) (e : exn) :
  query_relations dev fuel (String a s) rel t = Some (Raise e, t') ->
  query_failure e.
Proof.
  unfold query_relations, bind.
  destruct (my_send_command dev fuel (String a s) t) as [[[v|e0] t0]|] eqn:E;
    try discriminate.
  - destruct (my_send_command_returns_text _ _ _ _ _ _ _ E) as [o ->].
    unfold lift. intros H. inversion H; subst.
    destruct (parse_lines_cases
                (PyStr.drop_header_footer (PyStr.split_on "010" o)) rel)
      as [[_ Hp]|[_ Hp]]; unfold parse_response in *;
      rewrite Hp in *; [|discriminate].
    right. left. congruence.
  - intros H. inversion H; subst.
    destruct (my_send_command_raises _ _ _ _ _ _ E) as [->|Hn];
      [now left | now right; right].
Qed.

Lemma query_each_mac_raises (dev : device) (fuel : nat)
      (special_mac : list string) :
  forall (rel : list Relation) (t t' : trace) (e : exn),
    query_each_mac dev fuel special_mac rel t = Some (Raise e, t') ->
    query_failure e.
Proof.
  induction special_mac as [|item rest IH]; intros rel t t' e;
    cbn [query_each_mac].
  - discriminate.
  - unfold bind.
    destruct (query_relations dev fuel ("display mac-address " ++ item)
                              rel t) as [[[rel'|e0] t0]|] eqn:E;
      try discriminate.
    + apply IH.
    + intros H. inversion H; subst.
      exact (query_relations_raises _ _ _ _ _ _ _ _ E).
Qed.

(** X18. Whatever the switch does, the only exceptions [get_relations]
    lets through are the [RuntimeError] of [my_send_command] (which stands
    for every failure of the lock, the connection, the command or the
    save), the [IndexError] of a short line, and exceptions outside of
    [Exception]: never [ConfigSwitchError], [SwitchConnectionError] or
    [RetryError] themselves. *)
Theorem get_relations_failures
        (dev : device) (fuel : nat) (special_vlan : option Z)
        (special_mac : list string) (t t' : trace) (e : exn) :
  get_relations dev fuel special_vlan special_mac t = Some (Raise e, t') ->
  e = RuntimeError "No active exception to reraise"
  \/ e = IndexError
  \/ is_Exception e = false.
Proof.
  unfold get_relations, bind.
  destruct (query_each_mac dev fuel special_mac [] t)
    as [[[rel|e0] t0]|] eqn:E; try discriminate.
  - destruct special_vlan as [v|]; [|discriminate].
    destruct (v =? 0)%Z; [discriminate|].
    apply query_relations_raises.
  - intros H. inversion H; subst.
    exact (query_each_mac_raises _ _ _ _ _ _ _ E).
Qed.

Lemma get_relations_failures_witness :
  RuntimeError "No active exception to reraise"
  = RuntimeError "No active exception to reraise"
  \/ RuntimeError "No active exception to reraise" = IndexError
  \/ is_Exception (RuntimeError "No active exception to reraise") = false.
Proof.
  apply (get_relations_failures crowded_switch 16 (Some 10%Z) [] []
           [EvLog ERROR (Traceback (OtherException "LockTimeout"))]).
  reflexivity.
Defined.

(** ** What a success report means *)

Lemma call_Return {A : Type} (ev : event) (f : trace -> outcome A)
      (t t' : trace) (a : A) :
  call ev f t = Some (Return a, t') -> f t = Return a /\ t' = (t ++ [ev])%list.
Proof. unfold call. intros H. inversion H. auto. Qed.

(** X19. When [my_send_config_set] returns for a batch that is not empty,
    it returns [successful], and then the switch was given exactly this
    batch in configuration mode, its answer held no error marker, and the
    trace ends with the batch, the debug message with the answer, the
    disconnect and the release of the slot. *)
Theorem successful_means_accepted
        (dev : device) (fuel : nat) (cmd_set : list string) (t t' : trace)
        (v : option string) :
  cmd_set <> [] ->
  my_send_config_set dev fuel cmd_set t = Some (Return v, t') ->
  v = Some "successful"
  /\ exists h output,
      dev_send_config_set dev (h ++ [EvConfigMode])%list cmd_set
      = Return output
      /\ ~ has_marker output
      /\ t' = (h ++ [EvConfigMode; EvSendConfigSet cmd_set;
                     EvLog DEBUG (Msg (String "010" "result:"
                                       ++ String "010" output));
                     EvDisconnect; EvRelease])%list.
Proof.
  intros Hne H. destruct cmd_set as [|c cs]; [congruence|].
  unfold my_send_config_set, try_except in H.
  match type of H with
  | match ?m with _ => _ end = _ =>
      destruct m as [[[v0|e] t0]|] eqn:HM; try discriminate
  end.
  2:{ destruct (is_Exception e); [|discriminate].
      cbv [bind log emit raise] in H. discriminate. }
  inversion H; subst v0 t0. clear H.
  apply bind_Return in HM. destruct HM as [u [t1 [HP HR]]].
  inversion HR; subst. clear HR. split; [reflexivity|].
  unfold PoolLock in HP.
  destruct (dev_acquire dev t); [|discriminate].
  apply finally_emit in HP. destruct HP as [t2 [HG ->]].
  unfold _get_connection in HG.
  apply bind_Return in HG. destruct HG as [u1 [t3 [_ HB]]].
  apply finally_emit in HB. destruct HB as [t4 [HB ->]].
  unfold send_config_set, try_except in HB.
  match type of HB with
  | match ?m with _ => _ end = _ =>
      destruct m as [[[v0|e] t0]|] eqn:HI; try discriminate
  end.
  inversion HB; subst v0 t0. clear HB.
  apply bind_Return in HI. destruct HI as [u2 [t5 [H1 HI]]].
  apply call_Return in H1. destruct H1 as [_ ->].
  apply bind_Return in HI. destruct HI as [output [t6 [H2 HI]]].
  apply call_Return in H2. destruct H2 as [Hout ->].
  apply bind_Return in HI. destruct HI as [x [t7 [H3 HL]]].
  unfold lift in H3. inversion H3 as [[Hc Ht]]. subst t7.
  unfold log, emit in HL. inversion HL; subst. clear HL.
  exists t3, output. split; [exact Hout|]. split.
  - eapply check_output_Return. exact Hc.
  - now rewrite <- !app_assoc.
Qed.

Lemma successful_means_accepted_witness :
  Some "successful" = Some "successful"
  /\ exists h output,
      dev_send_config_set table_switch (h ++ [EvConfigMode])%list
                          ["interface GE1/0/1"; "shutdown"; "commit"; "q"]
      = Return output
      /\ ~ has_marker output
      /\ [EvAcquire; EvConnect; EvConfigMode;
          EvSendConfigSet ["interface GE1/0/1"; "shutdown"; "commit"; "q"];
          EvLog DEBUG (Msg (String "010" "result:" ++ String "010" ""));
          EvDisconnect; EvRelease]
         = (h ++ [EvConfigMode;
                  EvSendConfigSet
                    ["interface GE1/0/1"; "shutdown"; "commit"; "q"];
                  EvLog DEBUG (Msg (String "010" "result:"
                                    ++ String "010" output));
                  EvDisconnect; EvRelease])%list.
Proof.
  apply (successful_means_accepted table_switch 7
           ["interface GE1/0/1"; "shutdown"; "commit"; "q"] []).
  - discriminate.
  - reflexivity.
Defined.

(** ** The VLAN commands, as they are sent *)

Lemma vlan_batches_ordered (ps1 ps2 : list port) (p : port) :
  (set_link_type p = "trunk" ->
   set_vlan_commands [p]
   = (_unset_vlan [p] ++ trunk_set_stanza p ++ ["q"])%list
   /\ exists set1 set2,
       set_vlan_commands ps1 = (_unset_vlan ps1 ++ set1 ++ ["q"])%list
       /\ set_vlan_commands ps2 = (_unset_vlan ps2 ++ set2 ++ ["q"])%list
       /\ set_vlan_commands (ps1 ++ p :: ps2)
          = ((_unset_vlan ps1 ++ _unset_vlan [p] ++ _unset_vlan ps2)
             ++ (set1 ++ trunk_set_stanza p ++ set2)
             ++ ["q"])%list)
  /\ (current_link_type p <> "trunk" ->
      _unset_vlan [p] = access_unset_stanza p
      /\ unset_vlan_commands (ps1 ++ p :: ps2)
         = (_unset_vlan ps1 ++ access_unset_stanza p
            ++ _unset_vlan ps2 ++ ["q"])%list)
  /\ (current_link_type p = "trunk" ->
      _unset_vlan [p] = trunk_unset_stanza p).
Proof.
  split; [|split].
  - intros Ht. split.
    + unfold set_vlan_commands. simpl. rewrite Ht. simpl.
      now rewrite !app_nil_r.
    + eexists. eexists. split; [reflexivity|]. split; [reflexivity|].
      unfold set_vlan_commands.
      change (p :: ps2) with ([p] ++ ps2)%list.
      rewrite !unset_vlan_app, !flat_map_app. simpl.
      rewrite Ht. simpl. rewrite <- !app_assoc. reflexivity.
  - intros Hn. apply String.eqb_neq in Hn.
    assert (E : _unset_vlan [p] = access_unset_stanza p).
    { unfold _unset_vlan. simpl. now rewrite Hn. }
    split; [exact E|].
    unfold unset_vlan_commands.
    change (p :: ps2) with ([p] ++ ps2)%list.
    rewrite !unset_vlan_app, E, <- !app_assoc. reflexivity.
  - intros Ht. unfold _unset_vlan. simpl. now rewrite Ht.
Qed.

(** A batch for which [my_send_config_set] returns was given to the
    switch, whole and once, as the last exchange of the session. *)
Lemma returned_batch_was_sent (dev : device) (fuel : nat)
      (pre : list string) (t t' : trace) (v : option string) :
  my_send_config_set dev fuel (pre ++ ["q"]) t = Some (Return v, t') ->
  exists h output,
    dev_send_config_set dev (h ++ [EvConfigMode])%list (pre ++ ["q"])
    = Return output
    /\ t' = (h ++ [EvConfigMode; EvSendConfigSet (pre ++ ["q"]);
                   EvLog DEBUG (Msg (String "010" "result:"
                                     ++ String "010" output));
                   EvDisconnect; EvRelease])%list.
Proof.
  assert (E : exists c cs, (pre ++ ["q"])%list = c :: cs)
    by (destruct pre; simpl; eauto).
  destruct E as [c [cs E]]. rewrite E. clear E. intros H.
  unfold my_send_config_set, try_except in H.
  match type of H with
  | match ?m with _ => _ end = _ =>
      destruct m as [[[v0|e] t0]|] eqn:HM; try discriminate
  end.
  2:{ destruct (is_Exception e); [|discriminate].
      cbv [bind log emit raise] in H. discriminate. }
  inversion H; subst v0 t0. clear H.
  apply bind_Return in HM. destruct HM as [u [t1 [HP HR]]].
  inversion HR; subst. clear HR.
  unfold PoolLock in HP.
  destruct (dev_acquire dev t); [|discriminate].
  apply finally_emit in HP. destruct HP as [t2 [HG ->]].
  unfold _get_connection in HG.
  apply bind_Return in HG. destruct HG as [u1 [t3 [_ HB]]].
  apply finally_emit in HB. destruct HB as [t4 [HB ->]].
  unfold send_config_set, try_except in HB.
  match type of HB with
  | match ?m with _ => _ end = _ =>
      destruct m as [[[v0|e] t0]|] eqn:HI; try discriminate
  end.
  inversion HB; subst v0 t0. clear HB.
  apply bind_Return in HI. destruct HI as [u2 [t5 [H1 HI]]].
  apply call_Return in H1. destruct H1 as [_ ->].
  apply bind_Return in HI. destruct HI as [output [t6 [H2 HI]]].
  apply call_Return in H2. destruct H2 as [Hout ->].
  apply bind_Return in HI. destruct HI as [x [t7 [H3 HL]]].
  unfold lift in H3. inversion H3 as [[Hc Ht]]. subst t7.
  unfold log, emit in HL. inversion HL; subst. clear HL.
  exists t3, output. split; [exact Hout|].
  now rewrite <- !app_assoc.
Qed.

(** C7. [set_vlan] and [unset_vlan] hand to [my_send_config_set] exactly
    the batch compiled from the ports, after their debug messages, and
    nothing else; when they return, the switch was given that very batch,
    whole and once, in configuration mode.  The batch of [set_vlan] starts
    with the unset sequence of every port, in port order, goes on with the
    set stanzas in port order and ends with [q]; the stanza of a trunk
    port is [interface], the link type, the allow-list with the computed
    VLAN string, [commit] and the [q] that leaves the interface.  In the
    batch of [unset_vlan] the stanza of a port that is not a trunk is
    [interface], [undo port link-type], [undo port default vlan],
    [commit] and the closing [q]. *)
Theorem vlan_command_order
        (dev : device) (fuel : nat) (t : trace)
        (ps1 ps2 : list port) (p : port) :
  let ports := (ps1 ++ p :: ps2)%list in
  let sent (cmds : list string) (t' : trace) :=
    exists h output,
      dev_send_config_set dev (h ++ [EvConfigMode])%list cmds = Return output
      /\ t' = (h ++ [EvConfigMode; EvSendConfigSet cmds;
                     EvLog DEBUG (Msg (String "010" "result:"
                                       ++ String "010" output));
                     EvDisconnect; EvRelease])%list in
  set_vlan dev fuel ports t
  = my_send_config_set dev fuel (set_vlan_commands ports)
      (t ++ [EvLog DEBUG (MsgCmds "unset vlan command:" (_unset_vlan ports));
             EvLog DEBUG (MsgCmds "set vlan command:"
                                  (set_vlan_commands ports))])%list
  /\ unset_vlan dev fuel ports t
     = my_send_config_set dev fuel (unset_vlan_commands ports)
         (t ++ [EvLog DEBUG (MsgCmds "unset vlan command:"
                                     (_unset_vlan ports));
                EvLog DEBUG (MsgCmds "unset vlan command:"
                                     (unset_vlan_commands ports))])%list
  /\ (forall v t', set_vlan dev fuel ports t = Some (Return v, t') ->
                   sent (set_vlan_commands ports) t')
  /\ (forall v t', unset_vlan dev fuel ports t = Some (Return v, t') ->
                   sent (unset_vlan_commands ports) t')
  /\ (set_link_type p = "trunk" ->
      set_vlan_commands [p]
      = (_unset_vlan [p] ++ trunk_set_stanza p ++ ["q"])%list
      /\ exists set1 set2,
          set_vlan_commands ps1 = (_unset_vlan ps1 ++ set1 ++ ["q"])%list
          /\ set_vlan_commands ps2 = (_unset_vlan ps2 ++ set2 ++ ["q"])%list
          /\ set_vlan_commands (ps1 ++ p :: ps2)
             = ((_unset_vlan ps1 ++ _unset_vlan [p] ++ _unset_vlan ps2)
                ++ (set1 ++ trunk_set_stanza p ++ set2)
                ++ ["q"])%list)
  /\ (current_link_type p <> "trunk" ->
      _unset_vlan [p] = access_unset_stanza p
      /\ unset_vlan_commands (ps1 ++ p :: ps2)
         = (_unset_vlan ps1 ++ access_unset_stanza p
            ++ _unset_vlan ps2 ++ ["q"])%list)
  /\ (current_link_type p = "trunk" ->
      _unset_vlan [p] = trunk_unset_stanza p).
Proof.
  intros ports sent.
  assert (E1 : set_vlan dev fuel ports t
               = my_send_config_set dev fuel (set_vlan_commands ports)
                   (t ++ [EvLog DEBUG (MsgCmds "unset vlan command:"
                                               (_unset_vlan ports));
                          EvLog DEBUG (MsgCmds "set vlan command:"
                                               (set_vlan_commands ports))])
                     %list).
  { unfold set_vlan, bind, log, emit. now rewrite <- app_assoc. }
  assert (E2 : unset_vlan dev fuel ports t
               = my_send_config_set dev fuel (unset_vlan_commands ports)
                   (t ++ [EvLog DEBUG (MsgCmds "unset vlan command:"
                                               (_unset_vlan ports));
                          EvLog DEBUG (MsgCmds "unset vlan command:"
                                               (unset_vlan_commands ports))])
                     %list).
  { unfold unset_vlan, bind, log, emit. now rewrite <- app_assoc. }
  split; [exact E1|]. split; [exact E2|].
  split; [|split].
  - intros v t' H. rewrite E1 in H. unfold sent.
    unfold set_vlan_commands in H |- *.
    rewrite app_assoc in H. rewrite app_assoc.
    eapply returned_batch_was_sent. exact H.
  - intros v t' H. rewrite E2 in H. unfold sent.
    unfold unset_vlan_commands in H |- *.
    eapply returned_batch_was_sent. exact H.
  - apply vlan_batches_ordered.
Qed.

Lemma vlan_command_order_witness :
  set_vlan_commands
    [{| port_name := "GE1/0/1"; vlan_id := ["10-20"; "30"];
        set_link_type := "trunk"; current_link_type := "access" |}]
  = ["interface GE1/0/1"; "undo port link-type"; "undo port default vlan";
     "commit"; "q";
     "interface GE1/0/1"; "port link-type trunk";
     "port trunk allow-pass vlan 10 to 20 30 "; "commit"; "q"; "q"]
  /\ exists h output,
      dev_send_config_set table_switch (h ++ [EvConfigMode])%list
        ["interface GE1/0/1"; "undo port link-type";
         "undo port default vlan"; "commit"; "q";
         "interface GE1/0/1"; "port link-type trunk";
         "port trunk allow-pass vlan 10 to 20 30 "; "commit"; "q"; "q"]
      = Return output
      /\ h = [EvLog DEBUG
                (MsgCmds "unset vlan command:"
                   ["interface GE1/0/1"; "undo port link-type";
                    "undo port default vlan"; "commit"; "q"]);
              EvLog DEBUG
                (MsgCmds "set vlan command:"
                   ["interface GE1/0/1"; "undo port link-type";
                    "undo port default vlan"; "commit"; "q";
                    "interface GE1/0/1"; "port link-type trunk";
                    "port trunk allow-pass vlan 10 to 20 30 "; "commit";
                    "q"; "q"]);
              EvAcquire; EvConnect].
Proof.
  pose proof (vlan_command_order table_switch 7 [] [] []
    {| port_name := "GE1/0/1"; vlan_id := ["10-20"; "30"];
       set_link_type := "trunk"; current_link_type := "access" |})
    as [_ [_ [Hsent [_ [Hset [Hunset _]]]]]].
  split.
  - destruct (Hset eq_refl) as [E _].
    destruct Hunset as [U _]; [discriminate|].
    rewrite E, U. reflexivity.
  - destruct (Hsent _ _ eq_refl) as [h [output [Hout Ht]]].
    exists h, output. split; [exact Hout|].
    assert (Eo : output = "") by (simpl in Hout; congruence).
    subst output.
    eapply app_inv_tail. symmetry. exact Ht.
Defined.

(** ** What a single command raises *)



(** The session of a rejected command raises [ConfigSwitchError]; the
    caller of [my_send_command] sees [RuntimeError], and the traceback of
    the [ConfigSwitchError] is the last event. *)
Example rejected_command_is_hidden :
  exists t1,
    command_session strict_command_switch 16 "undo shutdwn" []
    = Some (Raise (ConfigSwitchError (OneCmd "undo shutdwn")
                     "Error: Unrecognized command found at '^' position."),
            t1)
    /\ my_send_command strict_command_switch 16 "undo shutdwn" []
       = Some (Raise (RuntimeError "No active exception to reraise"),
               (t1 ++ [EvLog ERROR
                         (Traceback
                            (ConfigSwitchError (OneCmd "undo shutdwn")
                               "Error: Unrecognized command found at '^' position."))])
                 %list).
Proof. eexists. split; reflexivity. Qed.
